(** * inkmap: print specifications from an OpenLayers map

    A shallow embedding of [src/main/utils.js]: the scale computation
    [getScaleForResolution], the layer translation [mapOlLayerToInkmap]
    and the assembly of the print specification [fromOlMap].

    Conventions of the embedding:
    - JavaScript numbers are IEEE 754 binary64 values, embedded as Rocq's
      primitive floats, whose operations round as JavaScript's do;
    - the values the code computes with (resolution, units, projection
      code, WMS parameters) are primitive values, [Js.value];
    - a synchronous call either returns or throws ([Js.completion]); a
      promise is embedded by the state it settles in ([Js.promise]), an
      [async] function by the trace it leaves and the state of the
      promise it returns;
    - what the module imports (the units table and [toLonLat] of
      OpenLayers, the GeoJSON writer, the style parser) and the engine's
      conversions between strings and numbers are parameters, the classes
      [Library] and [Js.Runtime];
    - console output and the calls of the style parser are kept as a
      trace of events. *)

From Stdlib Require Import Floats ZArith Lia Bool.
From stdpp Require Import base option list gmap strings.

Set Warnings "-inexact-float".
Local Open Scope Z_scope.

(** ** JavaScript values and operators *)

Module Js.

(** The primitive values the translated code computes with. *)
Inductive value : Type :=
| undefined
| null
| boolean (b : bool)
| number (x : float)
| str (s : string)
| symbol (id : N).

(** What a [throw] carries, or a promise is rejected with. *)
Inductive thrown : Type :=
| TypeError (msg : string)
| Error (msg : string)
| Foreign (id : N)      (* a failure raised by a collaborator *)
| NoReason.             (* [Promise.reject()]: the reason is undefined *)

(** Completion of a synchronous computation. *)
Inductive completion (A : Type) : Type :=
| Normal (a : A)
| Throw (e : thrown).
Arguments Normal {A} a.
Arguments Throw {A} e.

(** The state a promise settles in, [Pending] when it never does. *)
Inductive promise (A : Type) : Type :=
| Fulfilled (a : A)
| Rejected (e : thrown)
| Pending.
Arguments Fulfilled {A} a.
Arguments Rejected {A} e.
Arguments Pending {A}.

(** Conversions between strings and numbers are the engine's; they are
    taken as given. *)
Class Runtime := {
  StringToNumber : string -> float;      (* ToNumber on a string *)
  parseFloatString : string -> float;    (* parseFloat on a string *)
  NumberToString : float -> string       (* ToString on a number *)
}.

Definition is_symbol (v : value) : bool :=
  match v with symbol _ => true | _ => false end.

Definition is_null (v : value) : bool :=
  match v with null => true | _ => false end.

Definition is_undefined (v : value) : bool :=
  match v with undefined => true | _ => false end.

(** Truthiness: [undefined], [null], [false], [0], [-0], [NaN] and the
    empty string are falsy. *)
Definition ToBoolean (v : value) : bool :=
  match v with
  | undefined | null => false
  | boolean b => b
  | number x => negb (is_zero x || is_nan x)
  | str s => negb (String.eqb s "")
  | symbol _ => true
  end.

(** Sequencing of computations that may throw. *)
#[global] Instance completion_bind : MBind completion := fun _ _ k m =>
  match m with
  | Normal a => k a
  | Throw e => Throw e
  end.
#[global] Instance completion_ret : MRet completion := fun _ a => Normal a.

Section WithRuntime.
Context `{Runtime}.

Definition ToNumber (v : value) : completion float :=
  match v with
  | undefined => Normal nan
  | null => Normal 0%float
  | boolean b => Normal (if b then 1%float else 0%float)
  | number x => Normal x
  | str s => Normal (StringToNumber s)
  | symbol _ => Throw (TypeError "Cannot convert a Symbol value to a number")
  end.

(** [a * b]: both operands are converted, the left one first. *)
Definition mul (a b : value) : completion value :=
  x ← ToNumber a;
  y ← ToNumber b;
  mret (number (x * y)%float).

(** [parseFloat(v)] converts [v] to a string and parses the longest
    numeric prefix. The string of a number parses back to that number
    (the zeros both print as "0"); the strings of [undefined], [null]
    and the booleans have no numeric prefix. *)
Definition parseFloat (v : value) : completion value :=
  match v with
  | undefined | null | boolean _ => Normal (number nan)
  | number x => Normal (number (if is_zero x then 0%float else x))
  | str s => Normal (number (parseFloatString s))
  | symbol _ => Throw (TypeError "Cannot convert a Symbol value to a string")
  end.

(** Property keys: a symbol is a key of its own, every other value is
    converted to a string. *)
Definition ToPropertyKey (v : value) : option string :=
  match v with
  | undefined => Some "undefined"%string
  | null => Some "null"%string
  | boolean b => Some (if b then "true" else "false")%string
  | number x => Some (NumberToString x)
  | str s => Some s
  | symbol _ => None
  end.

(** [table[key]] for a table of numbers with string keys. Members
    inherited from [Object.prototype] are functions and objects, which
    [ToNumber] maps to NaN as it does [undefined]; they are read as
    [undefined] here. *)
Definition get (table : gmap string float) (key : value) : value :=
  match ToPropertyKey key with
  | Some k => match table !! k with Some x => number x | None => undefined end
  | None => undefined
  end.

End WithRuntime.

(** [Promise.all]: rejected as soon as one promise is (with the reason of
    the first one in the list when the collaborators settle in call
    order), pending while one is, fulfilled with all the values otherwise. *)
Fixpoint Promise_all {A : Type} (ps : list (promise A)) : promise (list A) :=
  match ps with
  | [] => Fulfilled []
  | p :: ps' =>
      match p, Promise_all ps' with
      | Rejected e, _ => Rejected e
      | _, Rejected e => Rejected e
      | Pending, _ => Pending
      | _, Pending => Pending
      | Fulfilled a, Fulfilled l => Fulfilled (a :: l)
      end
  end.

End Js.

Import Js.

(** ** Binary64 numbers *)

(** [normal_exponent x] is [Some k] when [x] is a normal number with
    [2^k <= |x| < 2^(k+1)], and [None] when [x] is a zero, subnormal,
    infinite or NaN. *)
Definition normal_exponent (x : float) : option Z :=
  match Prim2SF x with
  | S754_finite _ m e => if (digits2_pos m =? 53)%positive then Some (e + 52) else None
  | _ => None
  end.

(** Neither an infinity nor NaN. *)
Definition finite_number (x : float) : bool :=
  match Prim2SF x with
  | S754_nan | S754_infinity _ => false
  | S754_zero _ | S754_finite _ _ _ => true
  end.

(** The products of [r * mpu * 39.37 * (25.4 / 0.28)] stay in the range of
    normal numbers: [r], [mpu] and the three products are normal, the exact
    value of [r * mpu] is at least [2^-1022], and [r] and the first two
    products are below [2^1023]. *)
Definition in_normal_range (r mpu : float) : bool :=
  match normal_exponent r, normal_exponent mpu,
        normal_exponent (r * mpu)%float,
        normal_exponent (r * mpu * 39.37)%float,
        normal_exponent (r * mpu * 39.37 * (25.4 / 0.28))%float with
  | Some kr, Some km, Some k1, Some k2, Some _ =>
      (kr <? 1023) && (-1022 <=? kr + km) && (k1 <? 1023) && (k2 <? 1023)
  | _, _, _, _, _ => false
  end.

(** Doubling a number given by sign, mantissa and exponent. *)
Definition SFdouble (x : spec_float) : spec_float :=
  match x with
  | S754_finite s m e =>
      if e + 1 <=? emax - prec then S754_finite s m (e + 1) else S754_infinity s
  | _ => x
  end.

(** ** The map, as OpenLayers exposes it *)

(** What [layer.getStyle()] returns: a style, an array of styles or a
    style function; styles and functions are opaque to the translation. *)
Inductive StyleLike : Type :=
| StyleUndefined
| StyleNull
| Style (id : N)
| StyleArray (ids : list N)
| StyleFunction (id : N).

(** Objects, arrays and functions are truthy. *)
Definition style_truthy (s : StyleLike) : bool :=
  match s with
  | StyleUndefined | StyleNull => false
  | Style _ | StyleArray _ | StyleFunction _ => true
  end.

Inductive Feature : Type := feature (id : N).

Record TileGrid := {
  getResolutions : list float;
  getExtent : option (list float);
  getMatrixIds : list string
}.

(** The accessors of a WMTS source; [getProjection] is [None] when the
    source has no projection ([null]), and the code of the projection
    otherwise. *)
Record WMTSSource := {
  getRequestEncoding : value;
  getUrls : option (list string);
  getLayer : value;
  getProjection : option value;
  getMatrixSet : value;
  getTileGrid : option TileGrid;
  getFormat : value
}.

(** The source of a layer, by the class the [instanceof] tests find. The
    five classes are unrelated by inheritance, so that at most one test
    holds; [OtherSource] is any other class, [NoSource] is [null]. *)
Inductive Source : Type :=
| TileWMS (urls : option (list string)) (params : option (gmap string value))
| ImageWMS (url : option string) (params : option (gmap string value))
| WMTS (s : WMTSSource)
| OSM (urls : option (list string))
| VectorSource (features : list Feature)
| OtherSource
| NoSource.

Definition recognized (source : Source) : bool :=
  match source with
  | OtherSource | NoSource => false
  | _ => true
  end.

Record Layer := {
  instanceofVectorLayer : bool;
  getSource : Source;
  getOpacity : float;
  getStyle : StyleLike
}.

(** The view: the units and the code of its projection, its resolution and
    its center. *)
Record View := {
  getUnits : value;
  getResolution : value;
  getCode : value;
  getCenter : option (list float)
}.

Record OlMap := {
  getView : View;
  getLayers : list Layer
}.

(** ** The print specification *)

Inductive GeoJsonObject : Type := featureCollection (id : N).
Inductive GeoStylerStyle : Type := geoStylerStyle (id : N).

(** What the style parser resolves to. *)
Record ReadStyleResult := {
  output : option GeoStylerStyle;
  errors : option (list string);
  warnings : option (list string);
  unsupportedProperties : option (list string)
}.

Record TileGridSpec := {
  resolutions : option (list float);
  extent : option (list float);
  matrixIds : option (list nat)
}.

(** The layer descriptors, one constructor per object literal of
    [mapOlLayerToInkmap], with the fields in the order of the literal; an
    optional field is [None] when its value is [undefined]. *)
Inductive LayerSpec : Type :=
| WmsLayer (url : string) (opacity : float) (attribution : string)
    (layer : value) (tiled : bool)
| WmtsLayer (requestEncoding : value) (url : string) (layer : value)
    (projection : value) (matrixSet : value) (tileGrid : TileGridSpec)
    (format : value) (opacity : float) (attribution : string)
| XyzLayer (url : string) (opacity : float) (attribution : string)
    (tiled : bool)
| GeoJSONLayer (geojson : GeoJsonObject) (style : option GeoStylerStyle)
    (attribution : string).

(** Reading a property of a descriptor; [None] when the object has no such
    property. *)
Definition spec_type (d : LayerSpec) : string :=
  match d with
  | WmsLayer _ _ _ _ _ => "WMS"
  | WmtsLayer _ _ _ _ _ _ _ _ _ => "WMTS"
  | XyzLayer _ _ _ _ => "XYZ"
  | GeoJSONLayer _ _ _ => "GeoJSON"
  end.

Definition spec_url (d : LayerSpec) : option string :=
  match d with
  | WmsLayer url _ _ _ _ | WmtsLayer _ url _ _ _ _ _ _ _ | XyzLayer url _ _ _ => Some url
  | GeoJSONLayer _ _ _ => None
  end.

Definition spec_opacity (d : LayerSpec) : option float :=
  match d with
  | WmsLayer _ opacity _ _ _ | WmtsLayer _ _ _ _ _ _ _ opacity _
  | XyzLayer _ opacity _ _ => Some opacity
  | GeoJSONLayer _ _ _ => None
  end.

Definition spec_layer (d : LayerSpec) : option value :=
  match d with
  | WmsLayer _ _ _ layer _ | WmtsLayer _ _ layer _ _ _ _ _ _ => Some layer
  | _ => None
  end.

Definition spec_tiled (d : LayerSpec) : option bool :=
  match d with
  | WmsLayer _ _ _ _ tiled | XyzLayer _ _ _ tiled => Some tiled
  | _ => None
  end.

Definition spec_tileGrid (d : LayerSpec) : option TileGridSpec :=
  match d with
  | WmtsLayer _ _ _ _ _ tileGrid _ _ _ => Some tileGrid
  | _ => None
  end.

Record ScaleBar := {
  position : string;
  units : string
}.

Record PrintSpec := {
  layers : list LayerSpec;
  size : float * float * string;
  center : list float;
  dpi : float;
  scale : value;
  scaleBar : ScaleBar;
  projection : value;
  northArrow : string;
  attributions : string
}.

(** ** Collaborators and effects *)

(** What the module imports from OpenLayers and from the style parser. *)
Class Library := {
  METERS_PER_UNIT : gmap string float;                     (* ol/proj/Units *)
  toLonLat : list float -> value -> completion (list float);  (* ol/proj *)
  writeFeaturesObject : list Feature -> GeoJsonObject;     (* ol/format/GeoJSON *)
  readStyle : StyleLike -> promise ReadStyleResult         (* geostyler-openlayers-parser *)
}.

(** Console output, and the calls of the style parser. *)
Inductive Event : Type :=
| ConsoleLog_olMap
| ReadStyle (olStyle : StyleLike)
| ConsoleLog_gsStyle (gsStyle : ReadStyleResult)
| ConsoleError_errors (l : list string)
| ConsoleWarn_warnings (l : list string)
| ConsoleWarn_unsupported (l : list string)
| ConsoleError_caught (error : thrown).

(** An asynchronous computation: the events it produces and the state its
    promise settles in. Nothing runs after an [await] on a promise that is
    rejected or never settles. *)
Definition Async (A : Type) : Type := list Event * promise A.

Definition resolve {A : Type} (a : A) : Async A := ([], Fulfilled a).

Definition reject {A : Type} (e : thrown) : Async A := ([], Rejected e).

Definition emit (ev : Event) : Async unit := ([ev], Fulfilled tt).

Definition await {A : Type} (call : Event) (p : promise A) : Async A := ([call], p).

Definition andThen {A B : Type} (m : Async A) (k : A -> Async B) : Async B :=
  match m with
  | (t, Fulfilled a) => let '(t', r) := k a in (t ++ t', r)
  | (t, Rejected e) => (t, Rejected e)
  | (t, Pending) => (t, Pending)
  end.

#[global] Instance Async_bind : MBind Async := fun _ _ k m => andThen m k.
#[global] Instance Async_ret : MRet Async := fun _ a => resolve a.

(** [if (x) console.…(x)] *)
Definition whenSome (o : option (list string)) (ev : list string -> Event) : Async unit :=
  match o with
  | Some l => emit (ev l)
  | None => resolve tt
  end.

(** ** The translated functions *)

Section Main.
Context `{Runtime} `{Library}.

Definition getScaleForResolution (resolution units : value) : completion value :=
  let dpi := (25.4 / 0.28)%float in
  let mpu := get METERS_PER_UNIT units in
  let inchesPerMeter := 39.37%float in
  r ← (if ToBoolean resolution then parseFloat resolution else mret resolution);
  x1 ← mul r mpu;
  x2 ← mul x1 (number inchesPerMeter);
  mul x2 (number dpi).

(** [urls?.[0] ?? ''] *)
Definition firstUrl (urls : option (list string)) : string :=
  default ""%string (urls ≫= head).

(** [params?.LAYERS] *)
Definition LAYERS (params : option (gmap string value)) : value :=
  default undefined (params ≫= (.!! "LAYERS"%string)).

Definition mapOlLayerToInkmap (olLayer : Layer) : Async (option LayerSpec) :=
  let source := getSource olLayer in
  let opacity := getOpacity olLayer in
  match source with
  | TileWMS urls params =>
      resolve (Some (WmsLayer (firstUrl urls) opacity "" (LAYERS params) true))
  | ImageWMS url params =>
      resolve (Some (WmsLayer (default ""%string url) opacity "" (LAYERS params) false))
  | WMTS source =>
      let olTileGrid := getTileGrid source in
      let resolutions := getResolutions <$> olTileGrid in
      let matrixIds := imap (fun idx res => idx) <$> resolutions in
      let tileGrid :=
        {| resolutions := getResolutions <$> olTileGrid;
           extent := olTileGrid ≫= getExtent;
           matrixIds := matrixIds |} in
      match getProjection source with
      | None => reject (TypeError "Cannot read properties of null (reading 'getCode')")
      | Some code =>
          resolve (Some (WmtsLayer (getRequestEncoding source)
                           (firstUrl (getUrls source)) (getLayer source) code
                           (getMatrixSet source) tileGrid (getFormat source)
                           opacity ""))
      end
  | OSM _ =>
      resolve (Some (XyzLayer "https://{a-c}.tile.openstreetmap.org/{z}/{x}/{y}.png"
                       opacity "© OpenStreetMap (www.openstreetmap.org)" true))
  | VectorSource features =>
      let geojson := writeFeaturesObject features in
      let olStyle := if instanceofVectorLayer olLayer then getStyle olLayer else StyleNull in
      if style_truthy olStyle then
        gsStyle ← await (ReadStyle olStyle) (readStyle olStyle);
        emit (ConsoleLog_gsStyle gsStyle);;
        whenSome (errors gsStyle) ConsoleError_errors;;
        whenSome (warnings gsStyle) ConsoleWarn_warnings;;
        whenSome (unsupportedProperties gsStyle) ConsoleWarn_unsupported;;
        resolve (Some (GeoJSONLayer geojson (output gsStyle) ""))
      else
        resolve (Some (GeoJSONLayer geojson None ""))
  | OtherSource | NoSource => resolve None
  end.

(** The outcome of a call: the events in program order, those of one
    layer kept together, and either the exception thrown or the promise
    returned. *)
Definition fromOlMap (olMap : OlMap) : list Event * completion (promise PrintSpec) :=
  let unit := getUnits (getView olMap) in
  let resolution := getResolution (getView olMap) in
  let projection := getCode (getView olMap) in
  match getScaleForResolution resolution unit with
  | Throw e => ([ConsoleLog_olMap], Throw e)
  | Normal scale =>
      let center := getCenter (getView olMap) in
      if negb (ToBoolean unit) || negb (bool_decide (is_Some center))
         || is_null resolution || is_undefined resolution
      then ([ConsoleLog_olMap],
            Throw (Error "Can not determine unit / resolution from map"))
      else
        match toLonLat (default [] center) projection with
        | Throw e => ([ConsoleLog_olMap], Throw e)
        | Normal centerLonLat =>
            let layerPromises := mapOlLayerToInkmap <$> getLayers olMap in
            let trace := ConsoleLog_olMap :: concat (fst <$> layerPromises) in
            match Promise_all (snd <$> layerPromises) with
            | Fulfilled responses =>
                let layers := omap id responses in
                let config :=
                  {| layers := layers;
                     size := (400%float, 240%float, "mm"%string);
                     center := centerLonLat;
                     dpi := 120%float;
                     scale := scale;
                     scaleBar := {| position := "bottom-left"; units := "metric" |};
                     projection := projection;
                     northArrow := "top-right";
                     attributions := "bottom-right" |} in
                (trace, Normal (Fulfilled config))
            | Rejected error =>
                (trace ++ [ConsoleError_caught error], Normal (Rejected NoReason))
            | Pending => (trace, Normal Pending)
            end
        end
  end.

End Main.

(** ** Notions the statements use *)

(** The condition under which [fromOlMap] gives up on the view. *)
Definition incompleteViewState (v : View) : bool :=
  negb (ToBoolean (getUnits v)) || negb (bool_decide (is_Some (getCenter v)))
  || is_null (getResolution v) || is_undefined (getResolution v).

(** The four sources of tiles and images, among the five recognized ones. *)
Definition tileOrImageSource (source : Source) : bool :=
  match source with
  | TileWMS _ _ | ImageWMS _ _ | WMTS _ | OSM _ => true
  | VectorSource _ | OtherSource | NoSource => false
  end.

(** The calls of the style parser in a trace. *)
Definition readStyleCalls (t : list Event) : list StyleLike :=
  omap (fun ev => match ev with ReadStyle olStyle => Some olStyle | _ => None end) t.

(** The style [mapOlLayerToInkmap] reads from a layer. *)
Definition styleRead (olLayer : Layer) : StyleLike :=
  if instanceofVectorLayer olLayer then getStyle olLayer else StyleNull.

(** A layer whose translation yields the descriptor [d]. *)
Definition translatesTo `{Library} (olLayer : Layer) (d : LayerSpec) : Prop :=
  (mapOlLayerToInkmap olLayer).2 = Fulfilled (Some d).

(** [d.attribution]: every descriptor has one. *)
Definition spec_attribution (d : LayerSpec) : string :=
  match d with
  | WmsLayer _ _ attribution _ _ | WmtsLayer _ _ _ _ _ _ _ _ attribution
  | XyzLayer _ _ attribution _ | GeoJSONLayer _ _ attribution => attribution
  end.

(** The style with which the translation of a layer calls the parser, if
    it calls it: the truthy style of a layer on a vector source. *)
Definition styleTranslated (olLayer : Layer) : option StyleLike :=
  match getSource olLayer with
  | VectorSource _ =>
      if style_truthy (styleRead olLayer) then Some (styleRead olLayer) else None
  | _ => None
  end.

(** The events that follow the parser's answer: the answer is logged, then
    its errors, warnings and unsupported properties, those it has. *)
Definition diagnostics (gsStyle : ReadStyleResult) : list Event :=
  ConsoleLog_gsStyle gsStyle
  :: from_option (fun l => [ConsoleError_errors l]) [] (errors gsStyle)
  ++ from_option (fun l => [ConsoleWarn_warnings l]) [] (warnings gsStyle)
  ++ from_option (fun l => [ConsoleWarn_unsupported l]) []
       (unsupportedProperties gsStyle).

(** ** The readiness of the printer *)

(** What [printerReady] reads of the browser: whether canvases can be
    transferred off screen, and [navigator.serviceWorker], which is
    undefined where service workers are not available (an insecure
    context, say). Of the container: the state the promise of
    [register('inkmap-worker.js')] settles in, and whether a [controller]
    is there when the timer set after the registration fires. *)
Record ServiceWorkerContainer := {
  register : promise unit;
  controller : bool
}.

Record Browser := {
  transferControlToOffscreen : bool;
  serviceWorker : option ServiceWorkerContainer
}.

(** A call of one of the two functions a promise hands to its executor. *)
Inductive Settlement (A : Type) : Type :=
| Resolve (a : A)
| Reject (e : thrown).
Arguments Resolve {A} a.
Arguments Reject {A} e.

(** [new Promise(executor)]: the first call settles the promise, the later
    ones are ignored; an executor that throws rejects it. *)
Definition newPromise {A : Type} (calls : list (Settlement A)) : promise A :=
  match calls with
  | [] => Pending
  | Resolve a :: _ => Fulfilled a
  | Reject e :: _ => Rejected e
  end.

Inductive ConsoleEvent : Type :=
| ConsoleLog (message : string).

(** [!!HTMLCanvasElement.prototype.transferControlToOffscreen] *)
Definition hasOffscreenCanvasSupport (browser : Browser) : bool :=
  negb (negb (transferControlToOffscreen browser)).

(** The promise [printerReady], with what its executor and the callbacks
    of the registration log. The timer is taken to fire. *)
Definition printerReady (browser : Browser) : list ConsoleEvent * promise bool :=
  if hasOffscreenCanvasSupport browser then
    match serviceWorker browser with
    | None =>
        ([], newPromise
               [Reject (TypeError "Cannot read properties of undefined (reading 'register')")])
    | Some container =>
        match register container with
        | Fulfilled _ =>
            ([], newPromise
                   ((if negb (controller container) then [Resolve false] else [])
                    ++ [Resolve true]))
        | Rejected _ =>
            ([ConsoleLog "[inkmap] Service worker was not found. See https://github.com/camptocamp/inkmap for using multi-threading"],
             newPromise [Resolve false])
        | Pending => ([], newPromise [])
        end
    end
  else ([], newPromise [Resolve false]).

(** The module's last statement: [printerReady.then(useWorker => console.log(...))]. *)
Definition announceReady (browser : Browser) : list ConsoleEvent :=
  match (printerReady browser).2 with
  | Fulfilled useWorker =>
      [ConsoleLog ("[inkmap] Ready, "
                   +:+ (if useWorker then "using worker" else "using main thread"))]
  | Rejected _ | Pending => []
  end.

(** ** The example page *)

Inductive Blob : Type := blob (id : N).

(** What the page takes from inkmap and from the browser. *)
Class Page := {
  print : PrintSpec -> promise Blob;       (* @camptocamp/inkmap *)
  createObjectURL : Blob -> string         (* URL.createObjectURL *)
}.

(** What the page does to the button, the console and the document, and
    the events of [fromOlMap]. *)
Inductive PageEvent : Type :=
| ConsoleLog_map
| ShowSpinner
| HideSpinner
| Assembly (ev : Event)
| Print (spec : PrintSpec)
| CreateElement (tag : string)
| CreateObjectURL (imageBlob : Blob)
| SetAttribute (name value : string)
| Click.

Section Example08.
Context `{Runtime} `{Library} `{Page}.

Definition downloadBlob (imageBlob : Blob) (filename : string) : list PageEvent :=
  let objectUrl := createObjectURL imageBlob in
  [CreateElement "a"; CreateObjectURL imageBlob;
   SetAttribute "download" filename; SetAttribute "href" objectUrl; Click].

(** The listener of the button: an [async] function, so that what
    [fromOlMap] throws rejects its promise as a rejected promise does. *)
Definition onClick (map : OlMap) : list PageEvent * promise unit :=
  let started := [ConsoleLog_map; ShowSpinner] ++ (Assembly <$> (fromOlMap map).1) in
  match (fromOlMap map).2 with
  | Throw e => (started, Rejected e)
  | Normal (Rejected e) => (started, Rejected e)
  | Normal Pending => (started, Pending)
  | Normal (Fulfilled spec) =>
      match print spec with
      | Fulfilled imageBlob =>
          (started ++ Print spec :: HideSpinner :: downloadBlob imageBlob "inkmap.png",
           Fulfilled tt)
      | Rejected e => (started ++ [Print spec], Rejected e)
      | Pending => (started ++ [Print spec], Pending)
      end
  end.

End Example08.

(** ** Instances used by the examples *)

(** The digits of a string of decimal digits, most significant first. *)
Fixpoint decimalDigits (s : string) (acc : Z) : option Z :=
  match s with
  | EmptyString => Some acc
  | String c s' =>
      let d := Z.of_nat (Ascii.nat_of_ascii c) - 48 in
      if (0 <=? d) && (d <=? 9) then decimalDigits s' (10 * acc + d) else None
  end.

(** An engine for the examples: a non-empty string of at most fifteen
    decimal digits converts to the integer it denotes, which is then
    exact, the empty string to 0 under [ToNumber] and to NaN under
    [parseFloat]; of the numbers only NaN, the zeros and the infinities
    are printed. No other string is converted and no number is printed
    in the examples. *)
Definition exampleRuntime : Runtime :=
  let digits s :=
    match decimalDigits s 0 with
    | Some n => if (String.length s <=? 15)%nat then of_uint63 (Uint63.of_Z n) else nan
    | None => nan
    end in
  {| StringToNumber s := if String.eqb s "" then 0%float else digits s;
     parseFloatString s := if String.eqb s "" then nan else digits s;
     NumberToString x :=
       if is_nan x then "NaN"
       else if is_zero x then "0"
       else if is_infinity x then (if get_sign x then "-Infinity" else "Infinity")
       else "" |}.

(** [METERS_PER_UNIT] as OpenLayers 6 defines it. *)
Definition olUnits : gmap string float :=
  let PI := 3.141592653589793%float in
  {[ "radians"%string := (6370997 / (2 * PI))%float;
     "degrees"%string := ((2 * PI * 6370997) / 360)%float;
     "ft"%string := 0.3048%float;
     "m"%string := 1%float;
     "us-ft"%string := (1200 / 3937)%float ]}.

(** A parser for the examples: it fails on style 13 and translates every
    other style; of a style function it returns the style the function
    carries when the parser made the function itself (here, from number
    100 on), and reports an error and no output otherwise. *)
Definition exampleReadStyle (olStyle : StyleLike) : promise ReadStyleResult :=
  let translated id :=
    {| output := Some (geoStylerStyle id); errors := None; warnings := None;
       unsupportedProperties := None |} in
  match olStyle with
  | Style 13 => Rejected (Foreign 13)
  | Style id => Fulfilled (translated id)
  | StyleArray ids => Fulfilled (translated (default 0%N (head ids)))
  | StyleFunction id =>
      if (100 <=? id)%N then Fulfilled (translated id)
      else Fulfilled {| output := None; errors := Some ["style function"%string];
                        warnings := None; unsupportedProperties := None |}
  | StyleUndefined | StyleNull => Rejected (TypeError "no style")
  end.

(** The library for the examples. [toLonLat] returns the coordinate as it
    is, which is what OpenLayers does for a map in EPSG:4326; for another
    code OpenLayers returns other numbers (for an undefined code it takes
    the map to be in EPSG:3857), and the examples state nothing about
    them. *)
Definition exampleLibrary : Library :=
  {| METERS_PER_UNIT := olUnits;
     toLonLat c code := Normal c;
     writeFeaturesObject fs := featureCollection (N.of_nat (length fs));
     readStyle := exampleReadStyle |}.

(** Layers after the example page that comes with the sources: a public
    basemap, a tiled WMS, a WMTS with nineteen resolutions (its tile grid
    names the matrices here) and a vector layer. *)
Definition osmLayer : Layer :=
  {| instanceofVectorLayer := false;
     getSource := OSM (Some ["https://{a-c}.tile.openstreetmap.org/{z}/{x}/{y}.png"%string]);
     getOpacity := 1%float;
     getStyle := StyleUndefined |}.

Definition tileWmsLayer : Layer :=
  {| instanceofVectorLayer := false;
     getSource :=
       TileWMS (Some ["https://geoserver.mundialis.de/geoserver/wms"%string])
         (Some {[ "LAYERS"%string := str "1_040302"; "TILED"%string := boolean true ]});
     getOpacity := 0.5%float;
     getStyle := StyleUndefined |}.

Definition wmtsResolutions : list float :=
  [ 156543.03392804097; 78271.51696402048; 39135.75848201024;
    19567.87924100512; 9783.93962050256; 4891.96981025128;
    2445.98490512564; 1222.99245256282; 611.49622628141;
    305.748113140705; 152.8740565703525; 76.43702828517625;
    38.21851414258813; 19.109257071294063; 9.554628535647032;
    4.777314267823516; 2.388657133911758; 1.194328566955879;
    0.5971642834779395 ]%float.

Definition wmtsLayer : Layer :=
  {| instanceofVectorLayer := false;
     getSource :=
       WMTS {| getRequestEncoding := str "KVP";
               getUrls := Some ["https://mrdata.usgs.gov/mapcache/wmts"%string];
               getLayer := str "sgmc2";
               getProjection := Some (str "EPSG:3857");
               getMatrixSet := str "GoogleMapsCompatible";
               getTileGrid :=
                 Some {| getResolutions := wmtsResolutions;
                         getExtent := None;
                         getMatrixIds :=
                           ["level-0"; "level-1"; "level-2"; "level-3"; "level-4";
                            "level-5"; "level-6"; "level-7"; "level-8"; "level-9";
                            "level-10"; "level-11"; "level-12"; "level-13";
                            "level-14"; "level-15"; "level-16"; "level-17";
                            "level-18"]%string |};
               getFormat := str "image/png" |};
     getOpacity := 0.6%float;
     getStyle := StyleUndefined |}.

Definition vectorLayer (olStyle : StyleLike) : Layer :=
  {| instanceofVectorLayer := true;
     getSource := VectorSource [feature 1];
     getOpacity := 0.5%float;
     getStyle := olStyle |}.

(** A layer whose source is of no recognized class (say, a Bing Maps one). *)
Definition otherLayer : Layer :=
  {| instanceofVectorLayer := false;
     getSource := OtherSource;
     getOpacity := 1%float;
     getStyle := StyleUndefined |}.

(** A view in longitude and latitude, centered on 8°E 50°N. *)
Definition exampleView (resolution code : value) : View :=
  {| getUnits := str "degrees";
     getResolution := resolution;
     getCode := code;
     getCenter := Some [8; 50]%float |}.

Definition exampleMap (ls : list Layer) : OlMap :=
  {| getView := exampleView (number 0.02197265625) (str "EPSG:4326");
     getLayers := ls |}.

(** A browser with off-screen canvases whose worker registers and takes
    control, and one in which service workers are not available. *)
Definition workerBrowser : Browser :=
  {| transferControlToOffscreen := true;
     serviceWorker := Some {| register := Fulfilled tt; controller := true |} |}.

Definition insecureBrowser : Browser :=
  {| transferControlToOffscreen := true; serviceWorker := None |}.

(** A page whose printing fails on a specification without layers. *)
Definition examplePage : Page :=
  {| print spec :=
       match layers spec with
       | [] => Rejected (Foreign 21)
       | _ => Fulfilled (blob (N.of_nat (length (layers spec))))
       end;
     createObjectURL imageBlob :=
       match imageBlob with blob id => "blob:inkmap"%string end |}.

(** A WMTS layer whose source has no tile grid. *)
Definition gridlessWmtsLayer : Layer :=
  {| instanceofVectorLayer := false;
     getSource :=
       WMTS {| getRequestEncoding := str "KVP";
               getUrls := Some ["https://mrdata.usgs.gov/mapcache/wmts"%string];
               getLayer := str "sgmc2";
               getProjection := Some (str "EPSG:3857");
               getMatrixSet := str "GoogleMapsCompatible";
               getTileGrid := None;
               getFormat := str "image/png" |};
     getOpacity := 0.6%float;
     getStyle := StyleUndefined |}.

(** A single-image WMS layer. *)
Definition imageWmsLayer : Layer :=
  {| instanceofVectorLayer := false;
     getSource := ImageWMS (Some "http://x/wms"%string)
                    (Some {[ "LAYERS"%string := str "foo" ]});
     getOpacity := 0.25%float;
     getStyle := StyleUndefined |}.

(** A map in units the table of OpenLayers does not have. *)
Definition pixelMap (ls : list Layer) : OlMap :=
  {| getView := {| getUnits := str "pixels";
                   getResolution := number 1;
                   getCode := str "EPSG:4326";
                   getCenter := Some [8; 50]%float |};
     getLayers := ls |}.

(** * Properties *)

(** ** Rounding of binary64 products *)

Lemma shr_fexp_succ m e l :
  emin <= Zdigits2 m + e - prec ->
  shr_fexp prec emax m (e + 1) l =
  (fst (shr_fexp prec emax m e l), snd (shr_fexp prec emax m e l) + 1).
Proof.
  intros Hn. unfold shr_fexp, fexp.
  replace (Z.max (Zdigits2 m + (e + 1) - prec) emin - (e + 1))
    with (Zdigits2 m - prec) by lia.
  replace (Z.max (Zdigits2 m + e - prec) emin - e)
    with (Zdigits2 m - prec) by lia.
  unfold shr. destruct (Zdigits2 m - prec); cbn [fst snd]; f_equal; lia.
Qed.

(** The first shift either leaves the mantissa alone or ends above [emin]. *)
Lemma shr_fexp_cases m e l :
  emin <= Zdigits2 m + e - prec ->
  (snd (shr_fexp prec emax m e l) = e
   /\ fst (shr_fexp prec emax m e l) = shr_record_of_loc m l)
  \/ emin <= snd (shr_fexp prec emax m e l).
Proof.
  intros Hn. unfold shr_fexp, fexp.
  replace (Z.max (Zdigits2 m + e - prec) emin - e)
    with (Zdigits2 m - prec) by lia.
  unfold shr. destruct (Zdigits2 m - prec) eqn:E; cbn [fst snd];
    [left|right|left]; repeat split; lia.
Qed.

Lemma shr_fexp_succ_exact m e :
  emin <= Zdigits2 m + e - prec \/ emin <= e ->
  shr_fexp prec emax m (e + 1) loc_Exact =
  (fst (shr_fexp prec emax m e loc_Exact),
   snd (shr_fexp prec emax m e loc_Exact) + 1).
Proof.
  intros [Hn|Hn]; [now apply shr_fexp_succ|].
  destruct (Z_le_gt_dec emin (Zdigits2 m + e - prec)) as [Hd|Hd];
    [now apply shr_fexp_succ|].
  unfold shr_fexp, fexp.
  replace (Z.max (Zdigits2 m + (e + 1) - prec) emin - (e + 1))
    with (emin - e - 1) by lia.
  replace (Z.max (Zdigits2 m + e - prec) emin - e) with (emin - e) by lia.
  unfold shr.
  destruct (emin - e) eqn:E1; destruct (emin - e - 1) eqn:E2;
    cbn [fst snd]; try lia; reflexivity.
Qed.

Lemma SFdouble_round s (m : Z) e :
  match m with
  | Z0 => S754_zero s
  | Zpos p => if e + 1 <=? emax - prec then S754_finite s p (e + 1) else S754_infinity s
  | Zneg _ => S754_nan
  end =
  SFdouble match m with
           | Z0 => S754_zero s
           | Zpos p => if e <=? emax - prec then S754_finite s p e else S754_infinity s
           | Zneg _ => S754_nan
           end.
Proof.
  destruct m; try reflexivity.
  destruct (e + 1 <=? emax - prec) eqn:L2, (e <=? emax - prec) eqn:L1;
    cbn [SFdouble]; rewrite ?L2; try reflexivity.
  apply Z.leb_le in L2. apply Z.leb_gt in L1. lia.
Qed.

(** Away from underflow, rounding commutes with raising the exponent. *)
Lemma binary_round_aux_succ s m e :
  emin <= Zdigits2 (Zpos m) + e - prec ->
  binary_round_aux prec emax s (Zpos m) (e + 1) loc_Exact =
  SFdouble (binary_round_aux prec emax s (Zpos m) e loc_Exact).
Proof.
  intros Hn. unfold binary_round_aux.
  rewrite (shr_fexp_succ _ _ _ Hn).
  destruct (shr_fexp_cases (Zpos m) e loc_Exact Hn) as [[He Hm]|He];
    destruct (shr_fexp prec emax (Zpos m) e loc_Exact) as [mrs1 e1] eqn:E1;
    cbn [fst snd] in *.
  - subst. cbn [shr_record_of_loc shr_m loc_of_shr_record round_nearest_even].
    rewrite shr_fexp_succ_exact by (left; lia).
    destruct (shr_fexp prec emax (Zpos m) e loc_Exact) as [mrs2 e2]; cbn [fst snd].
    apply SFdouble_round.
  - rewrite shr_fexp_succ_exact by (right; lia).
    destruct (shr_fexp prec emax _ e1 loc_Exact) as [mrs2 e2]; cbn [fst snd].
    apply SFdouble_round.
Qed.

(** A product by [2^52] of a 53-bit mantissa rounds to that mantissa. *)
Lemma round_exact s m e :
  digits2_pos m = 53%positive -> emin <= e + 52 ->
  binary_round_aux prec emax s (Zpos (4503599627370496 * m)) e loc_Exact =
  if e + 52 <=? emax - prec then S754_finite s m (e + 52) else S754_infinity s.
Proof.
  intros Hd He. unfold binary_round_aux, shr_fexp, fexp.
  assert (Hdig : Zdigits2 (Zpos (4503599627370496 * m)) = 105).
  { change (4503599627370496 * m)%positive with (Pos.iter xO m 52).
    cbn -[digits2_pos]. cbn [Zdigits2 digits2_pos]. rewrite Hd. reflexivity. }
  rewrite Hdig.
  replace (Z.max (105 + e - prec) emin - e) with 52 by (unfold prec in *; lia).
  assert (Hit : SpecFloat.iter_pos shr_1 52
                  (shr_record_of_loc (Zpos (4503599627370496 * m)) loc_Exact)
                = Build_shr_record (Zpos m) false false) by reflexivity.
  cbn [shr]. rewrite Hit.
  cbn [shr_m loc_of_shr_record round_nearest_even Zdigits2]. rewrite Hd.
  replace (Z.max (53 + (e + 52) - prec) emin - (e + 52)) with 0
    by (unfold prec in *; lia).
  reflexivity.
Qed.

Lemma canonical_normal m e :
  bounded prec emax m e = true -> digits2_pos m = 53%positive ->
  emin <= e <= emax - prec.
Proof.
  unfold bounded, canonical_mantissa, fexp. intros Hb Hd. rewrite Hd in Hb.
  apply andb_prop in Hb as [H1 H2]. apply Z.eqb_eq in H1. apply Z.leb_le in H2.
  unfold prec in *. lia.
Qed.

Lemma mul_two_normal (a : float) s m e :
  Prim2SF a = S754_finite s m e -> digits2_pos m = 53%positive ->
  Prim2SF (2 * a) = SFdouble (S754_finite s m e).
Proof.
  intros Ha Hd. pose proof (Prim2SF_valid a) as Hv. rewrite Ha in Hv.
  cbn [valid_binary] in Hv.
  destruct (canonical_normal _ _ Hv Hd) as [He1 He2].
  rewrite mul_spec, Ha.
  change (Prim2SF 2) with (S754_finite false 4503599627370496 (-51)).
  unfold SF64mul, SFmul. cbn [xorb].
  rewrite round_exact by (auto; lia).
  cbn [SFdouble]. replace (-51 + e + 52) with (e + 1) by lia. reflexivity.
Qed.

Lemma digits2_pos_size p : digits2_pos p = Pos.size p.
Proof. induction p; cbn; congruence. Qed.

Lemma digits2_pos_lower p d : digits2_pos p = d -> 2 ^ (Zpos d - 1) <= Zpos p.
Proof.
  intros <-. rewrite digits2_pos_size.
  pose proof (Pos.size_le p) as Hs.
  apply Pos2Z.pos_le_pos in Hs. rewrite Pos2Z.inj_pow in Hs.
  change (Zpos p~0) with (2 * Zpos p) in Hs.
  replace (Zpos (Pos.size p)) with (Z.succ (Zpos (Pos.size p) - 1)) in Hs by lia.
  rewrite Z.pow_succ_r in Hs by lia. lia.
Qed.

Lemma digits2_pos_mul_ge ma mb :
  digits2_pos ma = 53%positive -> digits2_pos mb = 53%positive ->
  105 <= Zdigits2 (Zpos (ma * mb)).
Proof.
  intros Ha Hb. apply digits2_pos_lower in Ha, Hb.
  cbn [Zdigits2]. rewrite digits2_pos_size.
  pose proof (Pos.size_gt (ma * mb)) as Hs.
  apply Pos2Z.pos_lt_pos in Hs. rewrite Pos2Z.inj_pow, Pos2Z.inj_mul in Hs.
  destruct (Z_lt_le_dec (Zpos (Pos.size (ma * mb))) 105) as [Hlt|]; [exfalso|assumption].
  assert (2 ^ Zpos (Pos.size (ma * mb)) <= 2 ^ 104) by (apply Z.pow_le_mono_r; lia).
  change (53 - 1) with 52 in *.
  assert (2 ^ 52 * 2 ^ 52 <= Zpos ma * Zpos mb) by (apply Z.mul_le_mono_nonneg; lia).
  change (2 ^ 52 * 2 ^ 52) with (2 ^ 104) in *. lia.
Qed.

Lemma normal_exponent_inv x k :
  normal_exponent x = Some k ->
  exists s m, Prim2SF x = S754_finite s m (k - 52)
              /\ digits2_pos m = 53%positive /\ -1022 <= k <= 1023.
Proof.
  unfold normal_exponent. intros Hx.
  pose proof (Prim2SF_valid x) as Hv.
  destruct (Prim2SF x) as [ | | |s m e]; try discriminate.
  destruct (Pos.eqb_spec (digits2_pos m) 53) as [Hd|]; [|discriminate].
  injection Hx as <-. exists s, m.
  destruct (canonical_normal _ _ Hv Hd) as [H1 H2].
  replace (e + 52 - 52) with e by lia.
  change emin with (-1074) in H1. unfold emax, prec in H2.
  repeat split; auto; lia.
Qed.

(** Doubling a factor doubles the product, as long as the factors and the
    product are normal and the exact product does not underflow. *)
Lemma mul_two_assoc (a b : float) ka kb k :
  normal_exponent a = Some ka -> ka < 1023 ->
  normal_exponent b = Some kb -> -1022 <= ka + kb ->
  normal_exponent (a * b) = Some k ->
  ((2 * a) * b = 2 * (a * b))%float.
Proof.
  intros Ha Hka Hb Hkab Hab.
  destruct (normal_exponent_inv _ _ Ha) as (sa & ma & Ea & Da & Ra).
  destruct (normal_exponent_inv _ _ Hb) as (sb & mb & Eb & Db & Rb).
  destruct (normal_exponent_inv _ _ Hab) as (sc & mc & Ec & Dc & Rc).
  apply Prim2SF_inj.
  rewrite (mul_two_normal _ _ _ _ Ec Dc), <- Ec.
  rewrite mul_spec, (mul_two_normal _ _ _ _ Ea Da), Eb.
  cbn [SFdouble]. replace (ka - 52 + 1 <=? emax - prec) with true
    by (symmetry; apply Z.leb_le; unfold emax, prec; lia).
  rewrite mul_spec, Ea, Eb. unfold SF64mul, SFmul.
  replace (ka - 52 + 1 + (kb - 52)) with (ka - 52 + (kb - 52) + 1) by lia.
  apply binary_round_aux_succ.
  pose proof (digits2_pos_mul_ge _ _ Da Db). change emin with (-1074). unfold prec. lia.
Qed.

Lemma mul_nan_r (x : float) : (x * nan)%float = nan.
Proof.
  apply Prim2SF_inj. rewrite mul_spec.
  change (Prim2SF nan) with S754_nan. destruct (Prim2SF x); reflexivity.
Qed.

(** Zero times a finite number is a zero. *)
Lemma mul_zero_finite (y : float) :
  finite_number y = true -> (0 * y = 0 \/ 0 * y = -0)%float.
Proof.
  unfold finite_number. intros Hy.
  assert (Hz : exists s, Prim2SF (0 * y) = S754_zero s).
  { rewrite mul_spec. change (Prim2SF 0) with (S754_zero false).
    destruct (Prim2SF y); try discriminate; cbn; eauto. }
  destruct Hz as [s Hz]. rewrite <- (SF2Prim_Prim2SF (0 * y)), Hz.
  destruct s; [right|left]; reflexivity.
Qed.

(** ** The scale of a resolution *)

Section ScaleProperties.
Context `{Runtime} `{Library}.

Lemma get_string (u : string) :
  get METERS_PER_UNIT (str u) =
  match METERS_PER_UNIT !! u with Some x => number x | None => undefined end.
Proof. reflexivity. Qed.

Lemma get_cases (units : value) :
  get METERS_PER_UNIT units = undefined
  \/ exists mpu, get METERS_PER_UNIT units = number mpu.
Proof.
  unfold get. destruct (ToPropertyKey units) as [k|]; [|now left].
  destruct (METERS_PER_UNIT !! k); eauto.
Qed.

(** On a number the function is the product of the four factors, in the
    order JavaScript multiplies them. *)
Lemma getScaleForResolution_number (r mpu : float) (units : value) :
  get METERS_PER_UNIT units = number mpu ->
  getScaleForResolution (number r) units =
  Normal (number (r * mpu * 39.37 * (25.4 / 0.28))%float).
Proof.
  intros Hget. unfold getScaleForResolution. rewrite Hget.
  cbn [ToBoolean parseFloat].
  destruct (is_zero r) eqn:Hz; cbn [orb negb]; [reflexivity|].
  destruct (is_nan r); reflexivity.
Qed.

Lemma getScaleForResolution_undefined_units (r : float) (units : value) :
  get METERS_PER_UNIT units = undefined ->
  getScaleForResolution (number r) units =
  Normal (number (r * nan * 39.37 * (25.4 / 0.28))%float).
Proof.
  intros Hget. unfold getScaleForResolution. rewrite Hget.
  cbn [ToBoolean parseFloat].
  destruct (is_zero r) eqn:Hz; cbn [orb negb]; [reflexivity|].
  destruct (is_nan r); reflexivity.
Qed.

(** C6, as the code has it. For a units key [u] of the table and every
    number [r], [getScaleForResolution r u] is the binary64 product
    [r * METERS_PER_UNIT[u] * 39.37 * (25.4 / 0.28)]; a non-empty string
    counts as the number [parseFloat] reads from it; the scale of 0 is a
    zero when the table entry is finite; and the scale of [2 * r] is twice
    the scale of [r] whenever the products stay in the range of normal
    numbers ([in_normal_range]). *)
Theorem getScaleForResolution_product (u : string) (mpu : float) :
  METERS_PER_UNIT !! u = Some mpu ->
  (forall r : float,
     getScaleForResolution (number r) (str u) =
     Normal (number (r * mpu * 39.37 * (25.4 / 0.28))%float))
  /\ (forall s : string, s <> ""%string ->
      getScaleForResolution (str s) (str u) =
      Normal (number (parseFloatString s * mpu * 39.37 * (25.4 / 0.28))%float))
  /\ (finite_number mpu = true ->
      exists z : float,
        getScaleForResolution (number 0) (str u) = Normal (number z)
        /\ (z =? 0)%float = true)
  /\ (forall r : float, in_normal_range r mpu = true ->
      getScaleForResolution (number (2 * r)) (str u) =
      Normal (number (2 * (r * mpu * 39.37 * (25.4 / 0.28)))%float)).
Proof.
  intros Hu.
  assert (Hget : get METERS_PER_UNIT (str u) = number mpu)
    by (rewrite get_string, Hu; reflexivity).
  split; [|split; [|split]].
  - intros r. now apply getScaleForResolution_number.
  - intros s Hs. unfold getScaleForResolution. rewrite Hget.
    cbn [ToBoolean parseFloat].
    destruct (String.eqb_spec s ""); [contradiction|]. reflexivity.
  - intros Hfin. eexists. split; [apply getScaleForResolution_number, Hget|].
    destruct (mul_zero_finite mpu Hfin) as [-> | ->]; reflexivity.
  - intros r Hr. rewrite (getScaleForResolution_number _ mpu) by assumption.
    do 2 f_equal. unfold in_normal_range in Hr.
    destruct (normal_exponent r) as [kr|] eqn:Er; [|discriminate].
    destruct (normal_exponent mpu) as [km|] eqn:Em; [|discriminate].
    destruct (normal_exponent (r * mpu)) as [k1|] eqn:E1; [|discriminate].
    destruct (normal_exponent (r * mpu * 39.37)) as [k2|] eqn:E2; [|discriminate].
    destruct (normal_exponent (r * mpu * 39.37 * (25.4 / 0.28))) as [k3|] eqn:E3;
      [|discriminate].
    apply andb_prop in Hr as [Hr Hk2]. apply andb_prop in Hr as [Hr Hk1].
    apply andb_prop in Hr as [Hkr Hkm].
    apply Z.ltb_lt in Hkr, Hk1, Hk2. apply Z.leb_le in Hkm.
    destruct (normal_exponent_inv _ _ E1) as (_ & _ & _ & _ & Hk1').
    destruct (normal_exponent_inv _ _ E2) as (_ & _ & _ & _ & Hk2').
    rewrite (mul_two_assoc r mpu kr km k1) by assumption.
    rewrite (mul_two_assoc (r * mpu) 39.37 k1 5 k2)
      by (first [assumption | reflexivity | lia]).
    apply (mul_two_assoc (r * mpu * 39.37) (25.4 / 0.28) k2 6 k3);
      first [assumption | reflexivity | lia].
Qed.

(** No operation of the function throws unless the resolution is a symbol. *)
Lemma getScaleForResolution_returns (resolution units : value) :
  is_symbol resolution = false ->
  exists x : float, getScaleForResolution resolution units = Normal (number x).
Proof.
  intros Hsym. unfold getScaleForResolution.
  destruct (get_cases units) as [-> | [mpu ->]];
    destruct resolution as [ | |b|x|s|id]; try discriminate;
    cbn [ToBoolean parseFloat];
    try (destruct b); try (destruct (negb _));
    cbn; eexists; reflexivity.
Qed.

(** C9. [getScaleForResolution] returns a number for every resolution that
    is not a symbol (a number, a string, a boolean, [null] or [undefined])
    and every units argument; for a numeric resolution, positive or not,
    and units that the table does not have, the number is NaN. *)
Theorem getScaleForResolution_total (resolution units : value) :
  is_symbol resolution = false ->
  (exists x : float, getScaleForResolution resolution units = Normal (number x))
  /\ (forall r : float, resolution = number r ->
      get METERS_PER_UNIT units = undefined ->
      getScaleForResolution resolution units = Normal (number nan)).
Proof.
  intros Hsym. split.
  - now apply getScaleForResolution_returns.
  - intros r -> Hget.
    rewrite getScaleForResolution_undefined_units by assumption.
    rewrite mul_nan_r. reflexivity.
Qed.

End ScaleProperties.

(** The scale at zoom level 4 of a map in meters doubles with the
    resolution, and the scale of 0 is 0. *)
Lemma getScaleForResolution_product_witness :
  olUnits !! "m"%string = Some 1%float
  /\ @getScaleForResolution exampleRuntime exampleLibrary
       (number (2 * 9783.93962050256)) (str "m") =
     Normal (number (2 * (9783.93962050256 * 1 * 39.37 * (25.4 / 0.28)))%float)
  /\ exists z : float,
       @getScaleForResolution exampleRuntime exampleLibrary (number 0) (str "m") =
       Normal (number z) /\ (z =? 0)%float = true.
Proof.
  pose proof (@getScaleForResolution_product exampleRuntime exampleLibrary
                "m"%string 1%float eq_refl) as (_ & _ & Hzero & Hlin).
  split; [reflexivity|]. split.
  - apply Hlin. vm_compute. reflexivity.
  - apply Hzero. reflexivity.
Defined.

(** C6 as stated fails at the smallest positive number, the subnormal
    [5e-324], in meters: the scale of twice that resolution is 7166 times
    [5e-324], twice its scale is 7076 times [5e-324]. *)
Lemma getScaleForResolution_not_linear :
  @getScaleForResolution exampleRuntime exampleLibrary
    (number (2 * 5e-324)) (str "m") = Normal (number 3.5404744180983727e-320)
  /\ @getScaleForResolution exampleRuntime exampleLibrary
       (number 5e-324) (str "m") = Normal (number 1.7480042549863303e-320)
  /\ (3.5404744180983727e-320 =? 2 * 1.7480042549863303e-320)%float = false.
Proof. repeat split; vm_compute; reflexivity. Qed.

(** The products on the way, in multiples of [5e-324]: 39.37 rounds to 39
    and twice 39.37 to 79, which the last factor takes to 3538 and to
    7166. *)
Example subnormal_products :
  (5e-324 * 1 * 39.37 = 39 * 5e-324)%float
  /\ (2 * 5e-324 * 1 * 39.37 = 79 * 5e-324)%float
  /\ (39 * 5e-324 * (25.4 / 0.28) = 3538 * 5e-324)%float
  /\ (79 * 5e-324 * (25.4 / 0.28) = 7166 * 5e-324)%float
  /\ (2 * (3538 * 5e-324) = 7076 * 5e-324)%float.
Proof. repeat split; vm_compute; reflexivity. Qed.

(** The same happens between normal numbers when a product underflows on
    the way: a resolution of [3e-308] feet. *)
Example scale_in_feet_not_linear :
  @getScaleForResolution exampleRuntime exampleLibrary
    (number (2 * 3e-308)) (str "ft") = Normal (number 6.5314155085714266e-305)
  /\ @getScaleForResolution exampleRuntime exampleLibrary
       (number 3e-308) (str "ft") = Normal (number 3.2657077542857148e-305)
  /\ (6.5314155085714266e-305 =? 2 * 3.2657077542857148e-305)%float = false.
Proof. repeat split; vm_compute; reflexivity. Qed.

(** A positive resolution in units the table does not have: NaN, not an
    exception. *)
Lemma getScaleForResolution_total_witness :
  is_symbol (number 5) = false
  /\ (0 <? 5)%float = true
  /\ olUnits !! "pixels"%string = None
  /\ @getScaleForResolution exampleRuntime exampleLibrary
       (number 5) (str "pixels") = Normal (number nan).
Proof.
  pose proof (@getScaleForResolution_total exampleRuntime exampleLibrary
                (number 5) (str "pixels") eq_refl) as [_ Hnan].
  do 3 (split; [reflexivity|]).
  apply (Hnan 5%float); reflexivity.
Defined.

(** A resolution given as a numeric string has the scale of its number,
    and a missing resolution has a scale all the same: 0 for [null], NaN
    for [undefined]. *)
Example getScaleForResolution_other_resolutions :
  @getScaleForResolution exampleRuntime exampleLibrary (str "5") (str "m")
  = @getScaleForResolution exampleRuntime exampleLibrary (number 5) (str "m")
  /\ @getScaleForResolution exampleRuntime exampleLibrary null (str "m")
     = Normal (number 0)
  /\ @getScaleForResolution exampleRuntime exampleLibrary undefined (str "m")
     = Normal (number nan).
Proof. repeat split. Qed.

(** ** The translation of a layer *)

Section LayerProperties.
Context `{Library}.

Lemma imap_index {A : Type} (l : list A) (n : nat) :
  imap (fun idx _ => n + idx)%nat l = seq n (length l).
Proof.
  revert n. induction l as [|x l IH]; intros n; [reflexivity|].
  cbn [imap length seq]. f_equal; [lia|].
  rewrite <- IH. apply imap_ext. intros; cbn. lia.
Qed.

(** C8. A layer on a tiled WMS source translates, without an [await] and
    without failing, to a ['WMS'] descriptor with [tiled] true, whose url
    is the first url of the source, or the empty string when it has none,
    and whose layer is the [LAYERS] parameter, or [undefined] when the
    source has no such parameter. *)
Theorem tileWMS_descriptor (olLayer : Layer) (urls : option (list string))
    (params : option (gmap string value)) :
  getSource olLayer = TileWMS urls params ->
  exists d : LayerSpec,
    mapOlLayerToInkmap olLayer = ([], Fulfilled (Some d))
    /\ spec_type d = "WMS"%string
    /\ spec_tiled d = Some true
    /\ spec_url d = Some match urls with
                         | Some (u :: _) => u
                         | Some [] | None => ""%string
                         end
    /\ spec_layer d = Some match params with
                           | Some p => match p !! "LAYERS"%string with
                                       | Some v => v
                                       | None => undefined
                                       end
                           | None => undefined
                           end.
Proof.
  intros Hs. unfold mapOlLayerToInkmap. rewrite Hs.
  eexists. split; [reflexivity|]. cbn. repeat split.
  - destruct urls as [[|u us]|]; reflexivity.
  - destruct params as [p|]; [|reflexivity]. cbn. destruct (p !! _); reflexivity.
Qed.

(** C7. A layer on an OSM source translates to the ['XYZ'] descriptor with
    the fixed url template and the fixed attribution, whatever urls the
    source has. *)
Theorem osm_descriptor (olLayer : Layer) (urls : option (list string)) :
  getSource olLayer = OSM urls ->
  mapOlLayerToInkmap olLayer =
  ([], Fulfilled (Some (XyzLayer
                          "https://{a-c}.tile.openstreetmap.org/{z}/{x}/{y}.png"
                          (getOpacity olLayer)
                          "© OpenStreetMap (www.openstreetmap.org)" true))).
Proof. intros Hs. unfold mapOlLayerToInkmap. rewrite Hs. reflexivity. Qed.

(** C4. For a layer on a WMTS source whose tile grid has [N] resolutions,
    every descriptor the translation yields has the resolutions of the
    grid and the matrix ids [0, 1, ..., N-1], whatever identifiers the
    grid has ([0, 1, 2] for three resolutions); and a descriptor is
    yielded as soon as the source has a projection. *)
Theorem wmts_matrixIds (olLayer : Layer) (source : WMTSSource) (grid : TileGrid) :
  getSource olLayer = WMTS source ->
  getTileGrid source = Some grid ->
  (forall d : LayerSpec, translatesTo olLayer d ->
     spec_type d = "WMTS"%string
     /\ exists tileGrid : TileGridSpec,
          spec_tileGrid d = Some tileGrid
          /\ resolutions tileGrid = Some (getResolutions grid)
          /\ matrixIds tileGrid = Some (seq 0 (length (getResolutions grid)))
          /\ (forall r0 r1 r2 : float, getResolutions grid = [r0; r1; r2] ->
              matrixIds tileGrid = Some [0; 1; 2]%nat))
  /\ (forall code : value, getProjection source = Some code ->
      exists d : LayerSpec, mapOlLayerToInkmap olLayer = ([], Fulfilled (Some d))).
Proof.
  intros Hs Hg. unfold translatesTo, mapOlLayerToInkmap. rewrite Hs, Hg.
  destruct (getProjection source) as [code|]; cbn.
  - split; [|eauto]. intros d [= <-]. split; [reflexivity|].
    eexists. split; [reflexivity|]. cbn.
    pose proof (imap_index (getResolutions grid) 0) as Hi. cbn in Hi. rewrite Hi.
    repeat split. intros r0 r1 r2 ->. reflexivity.
  - split; [discriminate|]. discriminate.
Qed.

(** The translation of a layer on a vector source: the parser is called
    exactly when the style read from the layer is truthy, once and with
    that style, and the descriptor takes its style from the parser's
    output. *)
Lemma vector_translation (olLayer : Layer) (features : list Feature) :
  getSource olLayer = VectorSource features ->
  let geojson := writeFeaturesObject features in
  if style_truthy (styleRead olLayer) then
    readStyleCalls (mapOlLayerToInkmap olLayer).1 = [styleRead olLayer]
    /\ (mapOlLayerToInkmap olLayer).2 =
       match readStyle (styleRead olLayer) with
       | Fulfilled gsStyle => Fulfilled (Some (GeoJSONLayer geojson (output gsStyle) ""))
       | Rejected e => Rejected e
       | Pending => Pending
       end
  else
    mapOlLayerToInkmap olLayer = ([], Fulfilled (Some (GeoJSONLayer geojson None ""))).
Proof.
  intros Hs. unfold mapOlLayerToInkmap, styleRead. rewrite Hs. cbn zeta.
  destruct (style_truthy _); [|reflexivity].
  unfold mbind, Async_bind, andThen, await.
  destruct (readStyle _) as [gs| |]; cbn; [|split; reflexivity..].
  destruct (errors gs), (warnings gs), (unsupportedProperties gs); cbn;
    split; reflexivity.
Qed.

(** C5, as the code has it. A style function on a vector layer is not
    ignored: the parser is called once, with the function, and the
    translation settles as the parser does, with a ['GeoJSON'] descriptor
    whose style is the parser's output when it resolves. The style stays
    unset without a call of the parser exactly when the style read from
    the layer is [null] or [undefined]. *)
Theorem vector_style_function (olLayer : Layer) (features : list Feature) :
  getSource olLayer = VectorSource features ->
  (forall f : N,
     instanceofVectorLayer olLayer = true -> getStyle olLayer = StyleFunction f ->
     readStyleCalls (mapOlLayerToInkmap olLayer).1 = [StyleFunction f]
     /\ (mapOlLayerToInkmap olLayer).2 =
        match readStyle (StyleFunction f) with
        | Fulfilled gsStyle =>
            Fulfilled (Some (GeoJSONLayer (writeFeaturesObject features)
                               (output gsStyle) ""))
        | Rejected e => Rejected e
        | Pending => Pending
        end)
  /\ (readStyleCalls (mapOlLayerToInkmap olLayer).1 = []
      <-> style_truthy (styleRead olLayer) = false)
  /\ (style_truthy (styleRead olLayer) = false ->
      mapOlLayerToInkmap olLayer =
      ([], Fulfilled (Some (GeoJSONLayer (writeFeaturesObject features) None "")))).
Proof.
  intros Hs. pose proof (vector_translation olLayer features Hs) as Hv.
  cbn zeta in Hv. split; [|split].
  - intros f Hi Hf. unfold styleRead in Hv. rewrite Hi, Hf in Hv. exact Hv.
  - destruct (style_truthy _).
    + destruct Hv as [-> _]. split; discriminate.
    + rewrite Hv. split; reflexivity.
  - intros Hf. rewrite Hf in Hv. exact Hv.
Qed.

(** C10, as the code has it. For a layer on one of the four sources of
    tiles and images (tiled WMS, single-image WMS, WMTS, OSM), every
    descriptor the translation yields carries the opacity read from the
    layer, unchanged. *)
Theorem descriptor_opacity (olLayer : Layer) (d : LayerSpec) :
  tileOrImageSource (getSource olLayer) = true ->
  translatesTo olLayer d ->
  spec_opacity d = Some (getOpacity olLayer).
Proof.
  unfold translatesTo, mapOlLayerToInkmap. intros Hs Hd.
  destruct (getSource olLayer) as [urls params|url params|source|urls|features| |];
    try discriminate Hs; cbn in Hd.
  3: destruct (getProjection source); cbn in Hd.
  all: try discriminate; now injection Hd as <-.
Qed.

(** The translation resolves to [null] exactly for the sources of no
    recognized class. *)
Lemma null_iff_unrecognized (olLayer : Layer) :
  (mapOlLayerToInkmap olLayer).2 = Fulfilled None
  <-> recognized (getSource olLayer) = false.
Proof.
  destruct (getSource olLayer) as [urls params|url params|source|urls|features| |] eqn:Hs.
  5: { pose proof (vector_translation olLayer features Hs) as Hv. cbn zeta in Hv.
       destruct (style_truthy _).
       - destruct Hv as [_ ->]. destruct (readStyle _); split; discriminate.
       - rewrite Hv. split; discriminate. }
  all: unfold mapOlLayerToInkmap; rewrite Hs; cbn.
  3: destruct (getProjection source); cbn.
  all: split; first [discriminate | reflexivity].
Qed.

End LayerProperties.

(** ** The assembly of the print specification *)

Lemma Promise_all_Fulfilled {A : Type} (ps : list (promise A)) (l : list A) :
  Promise_all ps = Fulfilled l <-> ps = Fulfilled <$> l.
Proof.
  revert l. induction ps as [|p ps IH]; intros l.
  - destruct l; cbn; split; intros; congruence.
  - cbn [Promise_all]. destruct p as [a|e|], (Promise_all ps) as [l'|e'|] eqn:Hall;
      destruct l as [|b l]; cbn; split; intros Heq; try congruence.
    + injection Heq as -> <-. f_equal. now apply IH.
    + injection Heq as -> Hps. apply IH in Hps. congruence.
    + injection Heq as _ Hps. apply IH in Hps. congruence.
    + injection Heq as _ Hps. apply IH in Hps. congruence.
Qed.

Lemma Promise_all_Rejected {A : Type} (ps : list (promise A)) (i : nat) (e : thrown) :
  ps !! i = Some (Rejected e) -> exists e', Promise_all ps = Rejected e'.
Proof.
  revert i. induction ps as [|p ps IH]; intros i Hi; [discriminate|].
  destruct i as [|i]; cbn in Hi.
  - injection Hi as ->. cbn. eauto.
  - destruct (IH _ Hi) as [e' He']. cbn [Promise_all]. rewrite He'.
    destruct p; eauto.
Qed.

(** Keeping the elements that satisfy [P] deletes the only one that does
    not. *)
Lemma filter_delete {A : Type} (P : A -> Prop) `{forall x, Decision (P x)}
    (l : list A) (k : nat) (x : A) :
  l !! k = Some x -> ~ P x ->
  (forall j y, j <> k -> l !! j = Some y -> P y) ->
  filter P l = delete k l.
Proof.
  revert k. induction l as [|a l IH]; intros k Hk Hx Hothers; [discriminate|].
  destruct k as [|k]; cbn in Hk.
  - injection Hk as ->. rewrite filter_cons_False by assumption. cbn.
    clear IH. induction l as [|b l IHl]; [reflexivity|].
    rewrite filter_cons_True by (apply (Hothers 1%nat); [lia|reflexivity]).
    f_equal. apply IHl. intros [|j] y Hj Hy; [lia|].
    apply (Hothers (S (S j))); [lia|exact Hy].
  - rewrite filter_cons_True by (apply (Hothers 0%nat); [lia|reflexivity]).
    cbn. f_equal. apply (IH k); [assumption..|].
    intros j y Hj Hy. apply (Hothers (S j)); [lia|exact Hy].
Qed.

Section AssemblyProperties.
Context `{Runtime} `{Library}.

(** What [fromOlMap] returns once the view is complete and its center is
    transformed. *)
Lemma fromOlMap_complete (olMap : OlMap) (scale : value) (lonLat : list float) :
  getScaleForResolution (getResolution (getView olMap)) (getUnits (getView olMap))
  = Normal scale ->
  incompleteViewState (getView olMap) = false ->
  toLonLat (default [] (getCenter (getView olMap))) (getCode (getView olMap))
  = Normal lonLat ->
  let layerPromises := mapOlLayerToInkmap <$> getLayers olMap in
  let trace := ConsoleLog_olMap :: concat (fst <$> layerPromises) in
  fromOlMap olMap =
  match Promise_all (snd <$> layerPromises) with
  | Fulfilled responses =>
      (trace,
       Normal (Fulfilled
                 {| layers := omap id responses;
                    size := (400%float, 240%float, "mm"%string);
                    center := lonLat;
                    dpi := 120%float;
                    scale := scale;
                    scaleBar := {| position := "bottom-left"; units := "metric" |};
                    projection := getCode (getView olMap);
                    northArrow := "top-right";
                    attributions := "bottom-right" |}))
  | Rejected error => (trace ++ [ConsoleError_caught error], Normal (Rejected NoReason))
  | Pending => (trace, Normal Pending)
  end.
Proof.
  intros Hscale Hview Hcenter. unfold fromOlMap.
  unfold incompleteViewState in Hview. rewrite Hscale, Hview, Hcenter.
  reflexivity.
Qed.

(** A promise is returned only for a complete view. *)
Lemma fromOlMap_returns (olMap : OlMap) (p : promise PrintSpec) :
  (fromOlMap olMap).2 = Normal p ->
  exists scale lonLat,
    getScaleForResolution (getResolution (getView olMap)) (getUnits (getView olMap))
    = Normal scale
    /\ incompleteViewState (getView olMap) = false
    /\ toLonLat (default [] (getCenter (getView olMap))) (getCode (getView olMap))
       = Normal lonLat.
Proof.
  unfold fromOlMap, incompleteViewState.
  destruct (getScaleForResolution _ _) as [scale|]; [|discriminate].
  destruct (_ || _); [discriminate|].
  destruct (toLonLat _ _) as [lonLat|]; [|discriminate]. eauto.
Qed.

(** C1. When the translation of one layer rejects, [fromOlMap] never
    returns a promise fulfilled with a specification, whatever the other
    translations do; on a complete view it logs an error and returns a
    promise rejected without a reason. *)
Theorem fromOlMap_all_or_nothing (olMap : OlMap) (i : nat) (olLayer : Layer)
    (e : thrown) :
  getLayers olMap !! i = Some olLayer ->
  (mapOlLayerToInkmap olLayer).2 = Rejected e ->
  (forall spec : PrintSpec, (fromOlMap olMap).2 <> Normal (Fulfilled spec))
  /\ (forall (scale : value) (lonLat : list float),
        getScaleForResolution (getResolution (getView olMap))
          (getUnits (getView olMap)) = Normal scale ->
        incompleteViewState (getView olMap) = false ->
        toLonLat (default [] (getCenter (getView olMap))) (getCode (getView olMap))
        = Normal lonLat ->
        (fromOlMap olMap).2 = Normal (Rejected NoReason)
        /\ exists error, last (fromOlMap olMap).1 = Some (ConsoleError_caught error)).
Proof.
  intros Hi He.
  assert (Hrej : exists e', Promise_all ((mapOlLayerToInkmap <$> getLayers olMap).*2)
                            = Rejected e').
  { apply (Promise_all_Rejected _ i e). rewrite !list_lookup_fmap, Hi. cbn. now rewrite He. }
  destruct Hrej as [e' Hrej].
  assert (Hsecond : forall scale lonLat,
             getScaleForResolution (getResolution (getView olMap))
               (getUnits (getView olMap)) = Normal scale ->
             incompleteViewState (getView olMap) = false ->
             toLonLat (default [] (getCenter (getView olMap)))
               (getCode (getView olMap)) = Normal lonLat ->
             (fromOlMap olMap).2 = Normal (Rejected NoReason)
             /\ exists error,
                 last (fromOlMap olMap).1 = Some (ConsoleError_caught error)).
  { intros scale lonLat Hscale Hview Hcenter.
    rewrite (fromOlMap_complete olMap scale lonLat Hscale Hview Hcenter).
    cbn zeta. rewrite Hrej. cbn [fst snd]. split; [reflexivity|].
    exists e'. apply last_snoc. }
  split; [|exact Hsecond].
  intros spec Hspec.
  destruct (fromOlMap_returns _ _ Hspec) as (scale & lonLat & Hscale & Hview & Hcenter).
  destruct (Hsecond scale lonLat Hscale Hview Hcenter) as [Hr _]. congruence.
Qed.

(** The layers of a fulfilled call are what is left of the values the
    translations resolved to, in the order of the layers, once the
    [null]s are filtered out. *)
Lemma fromOlMap_responses (olMap : OlMap) (spec : PrintSpec) :
  (fromOlMap olMap).2 = Normal (Fulfilled spec) ->
  exists responses : list (option LayerSpec),
    Forall2 (fun olLayer response =>
               (mapOlLayerToInkmap olLayer).2 = Fulfilled response)
      (getLayers olMap) responses
    /\ layers spec = omap id responses.
Proof.
  intros Hspec.
  destruct (fromOlMap_returns _ _ Hspec) as (scale & lonLat & Hscale & Hview & Hcenter).
  rewrite (fromOlMap_complete olMap scale lonLat Hscale Hview Hcenter) in Hspec.
  cbn zeta in Hspec.
  destruct (Promise_all _) as [responses| |] eqn:Hall; try discriminate.
  cbn [snd] in Hspec. injection Hspec as <-. cbn [layers].
  exists responses. split; [|reflexivity].
  apply Promise_all_Fulfilled in Hall. clear -Hall.
  revert responses Hall.
  induction (getLayers olMap) as [|olLayer ls IH]; intros responses Hall.
  - destruct responses; [constructor|discriminate].
  - destruct responses as [|r responses]; [discriminate|].
    cbn in Hall. injection Hall as Hr Hrest. constructor; auto.
Qed.

(** The descriptors of a fulfilled call: those of the recognized layers,
    in the order of the layers. *)
Lemma fromOlMap_layers (olMap : OlMap) (spec : PrintSpec) :
  (fromOlMap olMap).2 = Normal (Fulfilled spec) ->
  Forall2 translatesTo
    (filter (fun olLayer => recognized (getSource olLayer) = true) (getLayers olMap))
    (layers spec).
Proof.
  intros Hspec.
  destruct (fromOlMap_responses olMap spec Hspec) as (responses & Hall & ->).
  induction Hall as [|olLayer r ls responses Hr _ IH]; [constructor|].
  destruct r as [d|]; cbn [omap id].
  - rewrite filter_cons_True.
    + constructor; [exact Hr|exact IH].
    + destruct (recognized (getSource olLayer)) eqn:Hrec; [reflexivity|].
      apply null_iff_unrecognized in Hrec. congruence.
  - rewrite filter_cons_False; [exact IH|].
    apply null_iff_unrecognized in Hr. congruence.
Qed.

(** C2. The translation of a layer resolves to [null] exactly when its
    source is of none of the five recognized classes; the layers of a
    specification [fromOlMap] fulfils with are the values the
    translations resolved to, in the order of the layers and without the
    [null]s, that is, the descriptors of the recognized layers; and when
    layer [k] is the only one that is not recognized, these are the
    descriptors of the other layers, one fewer than the layers of the
    map. *)
Theorem fromOlMap_drops_unrecognized (olMap : OlMap) (spec : PrintSpec) :
  (fromOlMap olMap).2 = Normal (Fulfilled spec) ->
  (forall olLayer : Layer,
     (mapOlLayerToInkmap olLayer).2 = Fulfilled None
     <-> recognized (getSource olLayer) = false)
  /\ (exists responses : list (option LayerSpec),
       Forall2 (fun olLayer response =>
                  (mapOlLayerToInkmap olLayer).2 = Fulfilled response)
         (getLayers olMap) responses
       /\ layers spec = omap id responses)
  /\ Forall2 translatesTo
       (filter (fun olLayer => recognized (getSource olLayer) = true)
          (getLayers olMap))
       (layers spec)
  /\ (forall (k : nat) (olLayer : Layer),
        getLayers olMap !! k = Some olLayer ->
        recognized (getSource olLayer) = false ->
        (forall (j : nat) (other : Layer), j <> k ->
           getLayers olMap !! j = Some other ->
           recognized (getSource other) = true) ->
        length (layers spec) = (length (getLayers olMap) - 1)%nat
        /\ Forall2 translatesTo (delete k (getLayers olMap)) (layers spec)).
Proof.
  intros Hspec. pose proof (fromOlMap_layers olMap spec Hspec) as Hlayers.
  split; [exact null_iff_unrecognized|].
  split; [exact (fromOlMap_responses olMap spec Hspec)|]. split; [exact Hlayers|].
  intros k olLayer Hk Hrec Hothers.
  rewrite (filter_delete _ _ k olLayer Hk) in Hlayers
    by (first [congruence | exact Hothers]).
  split; [|exact Hlayers].
  apply Forall2_length in Hlayers. rewrite <- Hlayers, length_delete; [reflexivity|].
  now rewrite Hk.
Qed.

(** C3, as the code has it. For a resolution that is not a symbol,
    [fromOlMap] throws the error about the view, having done nothing but
    log the map, when the units are falsy, the center is missing or the
    resolution is [null] or [undefined]; a numeric resolution, 0 included,
    passes with truthy units and a center. The code of the projection is
    read and not checked: a view that passes is given to [toLonLat]
    whatever its code, and a promise is returned unless [toLonLat] throws. *)
Theorem fromOlMap_view_state (olMap : OlMap) :
  is_symbol (getResolution (getView olMap)) = false ->
  (incompleteViewState (getView olMap) = true ->
   fromOlMap olMap =
   ([ConsoleLog_olMap], Throw (Error "Can not determine unit / resolution from map")))
  /\ (forall x : float,
        getResolution (getView olMap) = number x ->
        ToBoolean (getUnits (getView olMap)) = true ->
        is_Some (getCenter (getView olMap)) ->
        incompleteViewState (getView olMap) = false)
  /\ (incompleteViewState (getView olMap) = false ->
      match toLonLat (default [] (getCenter (getView olMap)))
              (getCode (getView olMap)) with
      | Throw e => fromOlMap olMap = ([ConsoleLog_olMap], Throw e)
      | Normal _ => exists p, (fromOlMap olMap).2 = Normal p
      end).
Proof.
  intros Hsym.
  destruct (getScaleForResolution_returns _ (getUnits (getView olMap)) Hsym)
    as [x Hscale].
  split; [|split].
  - intros Hview. unfold fromOlMap. unfold incompleteViewState in Hview.
    rewrite Hscale, Hview. reflexivity.
  - intros r Hr Hu Hc. unfold incompleteViewState. rewrite Hr, Hu.
    rewrite bool_decide_eq_true_2 by assumption. reflexivity.
  - intros Hview.
    destruct (toLonLat _ _) as [lonLat|e] eqn:Hcenter.
    + rewrite (fromOlMap_complete olMap _ lonLat Hscale Hview Hcenter). cbn zeta.
      destruct (Promise_all _); cbn [snd]; eauto.
    + unfold fromOlMap. unfold incompleteViewState in Hview.
      rewrite Hscale, Hview, Hcenter. reflexivity.
Qed.

End AssemblyProperties.

(** ** The statements at concrete maps *)

(** The tiled WMS of the specification: [LAYERS=foo] at [http://x/wms]. *)
Lemma tileWMS_descriptor_witness :
  exists d : LayerSpec,
    @mapOlLayerToInkmap exampleLibrary
      {| instanceofVectorLayer := false;
         getSource := TileWMS (Some ["http://x/wms"%string])
                        (Some {[ "LAYERS"%string := str "foo" ]});
         getOpacity := 1%float;
         getStyle := StyleUndefined |}
    = ([], Fulfilled (Some d))
    /\ spec_type d = "WMS"%string
    /\ spec_tiled d = Some true
    /\ spec_url d = Some "http://x/wms"%string
    /\ spec_layer d = Some (str "foo").
Proof.
  exact (@tileWMS_descriptor exampleLibrary
           {| instanceofVectorLayer := false;
              getSource := TileWMS (Some ["http://x/wms"%string])
                             (Some {[ "LAYERS"%string := str "foo" ]});
              getOpacity := 1%float;
              getStyle := StyleUndefined |}
           _ _ eq_refl).
Defined.

(** An OSM source configured with tiles of its own still yields the fixed
    template. *)
Lemma osm_descriptor_witness :
  @mapOlLayerToInkmap exampleLibrary
    {| instanceofVectorLayer := false;
       getSource := OSM (Some ["https://tiles.example.org/{z}/{x}/{y}.png"%string]);
       getOpacity := 0.8%float;
       getStyle := StyleUndefined |}
  = ([], Fulfilled (Some (XyzLayer
                            "https://{a-c}.tile.openstreetmap.org/{z}/{x}/{y}.png"
                            0.8 "© OpenStreetMap (www.openstreetmap.org)" true))).
Proof.
  exact (@osm_descriptor exampleLibrary
           {| instanceofVectorLayer := false;
              getSource := OSM (Some ["https://tiles.example.org/{z}/{x}/{y}.png"%string]);
              getOpacity := 0.8%float;
              getStyle := StyleUndefined |}
           _ eq_refl).
Defined.

(** The WMTS layer of the example page: nineteen resolutions, matrix ids 0
    to 18, although the grid names its matrices [level-0] to [level-18]. *)
Lemma wmts_matrixIds_witness :
  exists (d : LayerSpec) (tileGrid : TileGridSpec),
    @mapOlLayerToInkmap exampleLibrary wmtsLayer = ([], Fulfilled (Some d))
    /\ spec_tileGrid d = Some tileGrid
    /\ resolutions tileGrid = Some wmtsResolutions
    /\ matrixIds tileGrid = Some (seq 0 19).
Proof.
  destruct (@wmts_matrixIds exampleLibrary wmtsLayer _ _ eq_refl eq_refl)
    as [Hd Hproj].
  destruct (Hproj (str "EPSG:3857") eq_refl) as [d Hrun].
  destruct (Hd d (f_equal snd Hrun)) as (_ & tileGrid & Hgrid & Hres & Hids & _).
  exists d, tileGrid. repeat split; assumption.
Defined.

(** A vector layer styled by a style function: the parser is called with
    the function. *)
Lemma vector_style_function_witness :
  getSource (vectorLayer (StyleFunction 7)) = VectorSource [feature 1]
  /\ readStyleCalls (@mapOlLayerToInkmap exampleLibrary
                       (vectorLayer (StyleFunction 7))).1 = [StyleFunction 7]
  /\ (@mapOlLayerToInkmap exampleLibrary (vectorLayer (StyleFunction 7))).2
     = Fulfilled (Some (GeoJSONLayer (featureCollection 1) None "")).
Proof.
  destruct (@vector_style_function exampleLibrary (vectorLayer (StyleFunction 7))
              [feature 1] eq_refl) as (Hf & _ & _).
  destruct (Hf 7%N eq_refl eq_refl) as [Hcalls Hrun].
  repeat split; assumption.
Defined.

(** C5 as stated fails on a vector layer whose style function the parser
    understands: the parser is called with the function, and the style of
    the descriptor is set. *)
Lemma style_function_reaches_parser :
  getSource (vectorLayer (StyleFunction 100)) = VectorSource [feature 1]
  /\ getStyle (vectorLayer (StyleFunction 100)) = StyleFunction 100
  /\ @mapOlLayerToInkmap exampleLibrary (vectorLayer (StyleFunction 100))
     = ([ReadStyle (StyleFunction 100);
         ConsoleLog_gsStyle {| output := Some (geoStylerStyle 100); errors := None;
                               warnings := None; unsupportedProperties := None |}],
        Fulfilled (Some (GeoJSONLayer (featureCollection 1)
                           (Some (geoStylerStyle 100)) ""))).
Proof. repeat split. Qed.

(** The tiled WMS of the example page keeps its opacity of 0.5. *)
Lemma descriptor_opacity_witness :
  exists d : LayerSpec,
    tileOrImageSource (getSource tileWmsLayer) = true
    /\ @translatesTo exampleLibrary tileWmsLayer d
    /\ spec_opacity d = Some 0.5%float.
Proof.
  eexists. split; [reflexivity|]. split; [reflexivity|].
  exact (@descriptor_opacity exampleLibrary tileWmsLayer _ eq_refl eq_refl).
Defined.

(** C10 as stated fails on a vector layer: the layer has opacity 0.5, its
    source is one of the five recognized ones, and its descriptor has no
    opacity. *)
Lemma vector_descriptor_drops_opacity :
  getOpacity (vectorLayer StyleNull) = 0.5%float
  /\ recognized (getSource (vectorLayer StyleNull)) = true
  /\ @mapOlLayerToInkmap exampleLibrary (vectorLayer StyleNull)
     = ([], Fulfilled (Some (GeoJSONLayer (featureCollection 1) None "")))
  /\ spec_opacity (GeoJSONLayer (featureCollection 1) None "") = None.
Proof. repeat split. Qed.

(** Two vector layers, the parser failing on the style of the second: the
    first translation is fulfilled, the call is rejected as a whole. *)
Lemma fromOlMap_all_or_nothing_witness :
  let olMap := exampleMap [vectorLayer (Style 1); vectorLayer (Style 13)] in
  getLayers olMap !! 1%nat = Some (vectorLayer (Style 13))
  /\ (@mapOlLayerToInkmap exampleLibrary (vectorLayer (Style 13))).2
     = Rejected (Foreign 13)
  /\ (@mapOlLayerToInkmap exampleLibrary (vectorLayer (Style 1))).2
     = Fulfilled (Some (GeoJSONLayer (featureCollection 1)
                          (Some (geoStylerStyle 1)) ""))
  /\ (forall spec : PrintSpec,
        (@fromOlMap exampleRuntime exampleLibrary olMap).2
        <> Normal (Fulfilled spec))
  /\ (@fromOlMap exampleRuntime exampleLibrary olMap).2 = Normal (Rejected NoReason).
Proof.
  cbv zeta.
  destruct (@fromOlMap_all_or_nothing exampleRuntime exampleLibrary
              (exampleMap [vectorLayer (Style 1); vectorLayer (Style 13)])
              1%nat (vectorLayer (Style 13)) (Foreign 13) eq_refl eq_refl)
    as [Hnever Hrejected].
  do 3 (split; [reflexivity|]). split; [exact Hnever|].
  edestruct Hrejected as [Hr _]; [reflexivity..|exact Hr].
Defined.

(** Four layers, the third of a class that is not recognized: three
    descriptors, those of the other layers in their order. *)
Lemma fromOlMap_drops_unrecognized_witness :
  let olMap :=
    exampleMap [osmLayer; tileWmsLayer; otherLayer; vectorLayer (StyleArray [1; 2]%N)] in
  exists spec : PrintSpec,
    (@fromOlMap exampleRuntime exampleLibrary olMap).2 = Normal (Fulfilled spec)
    /\ length (layers spec) = 3%nat
    /\ Forall2 (@translatesTo exampleLibrary)
         [osmLayer; tileWmsLayer; vectorLayer (StyleArray [1; 2]%N)] (layers spec).
Proof.
  cbv zeta. eexists. split; [reflexivity|].
  edestruct (@fromOlMap_drops_unrecognized exampleRuntime exampleLibrary
               (exampleMap [osmLayer; tileWmsLayer; otherLayer;
                            vectorLayer (StyleArray [1; 2]%N)]) _ eq_refl)
    as (_ & _ & _ & Hk).
  apply (Hk 2%nat otherLayer eq_refl eq_refl).
  intros [|[|[|[|j]]]] other Hj Hother; try lia; try discriminate;
    injection Hother as <-; reflexivity.
Defined.

(** A view without resolution: the error about the view and no work on
    the layers; a view with resolution 0 is complete. *)
Lemma fromOlMap_view_state_witness :
  @fromOlMap exampleRuntime exampleLibrary
    {| getView := exampleView undefined (str "EPSG:4326");
       getLayers := [vectorLayer (Style 1)] |}
  = ([ConsoleLog_olMap],
     Throw (Error "Can not determine unit / resolution from map"))
  /\ incompleteViewState (exampleView (number 0) (str "EPSG:4326")) = false.
Proof.
  split.
  - apply (@fromOlMap_view_state exampleRuntime exampleLibrary
             {| getView := exampleView undefined (str "EPSG:4326");
                getLayers := [vectorLayer (Style 1)] |} eq_refl).
    reflexivity.
  - destruct (@fromOlMap_view_state exampleRuntime exampleLibrary
                {| getView := exampleView (number 0) (str "EPSG:4326");
                   getLayers := [] |} eq_refl) as (_ & Hzero & _).
    apply (Hzero 0%float); [reflexivity|reflexivity|eexists; reflexivity].
Defined.

(** C3 as stated fails on a view whose projection has no code: the units,
    the center and the resolution are there, and a specification is
    returned, its projection undefined. *)
Lemma fromOlMap_projection_unchecked :
  exists spec : PrintSpec,
    @fromOlMap exampleRuntime exampleLibrary
      {| getView := exampleView (number 0.02197265625) undefined;
         getLayers := [osmLayer] |}
    = ([ConsoleLog_olMap], Normal (Fulfilled spec))
    /\ projection spec = undefined
    /\ layers spec =
       [XyzLayer "https://{a-c}.tile.openstreetmap.org/{z}/{x}/{y}.png" 1
          "© OpenStreetMap (www.openstreetmap.org)" true].
Proof. eexists. repeat split. Qed.

(** * Further properties of the module *)

(** ** Signs and NaN in the scale *)

Lemma mul_nan_l (x : float) : (nan * x)%float = nan.
Proof.
  apply Prim2SF_inj. rewrite mul_spec.
  change (Prim2SF nan) with S754_nan. reflexivity.
Qed.

Lemma binary_round_aux_opp s m e l :
  binary_round_aux prec emax (negb s) m e l
  = SFopp (binary_round_aux prec emax s m e l).
Proof.
  unfold binary_round_aux.
  destruct (shr_fexp prec emax m e l) as [mrs1 e1].
  destruct (shr_fexp prec emax _ e1 loc_Exact) as [mrs2 e2].
  destruct (shr_m mrs2); try reflexivity.
  destruct (e2 <=? emax - prec); reflexivity.
Qed.

(** Changing the sign of a factor changes the sign of the product, and
    nothing else. *)
Lemma mul_opp_l (a b : float) : (- a * b = - (a * b))%float.
Proof.
  apply Prim2SF_inj. rewrite opp_spec, !mul_spec, opp_spec.
  unfold SF64mul, SFmul, SFopp.
  destruct (Prim2SF a) as [sa|sa| |sa ma ea], (Prim2SF b) as [sb|sb| |sb mb eb];
    try reflexivity;
    try (destruct sa, sb; reflexivity).
  replace (xorb (negb sa) sb) with (negb (xorb sa sb)) by (destruct sa, sb; reflexivity).
  apply binary_round_aux_opp.
Qed.

(** [x < 0] is false exactly for the zeros, NaN, and the finite numbers
    and the infinity of positive sign. *)
Lemma ltb_zero_sign (x : float) :
  (x <? 0)%float =
  match Prim2SF x with
  | S754_zero _ | S754_nan => false
  | S754_infinity s | S754_finite s _ _ => s
  end.
Proof.
  rewrite ltb_spec. change (Prim2SF 0) with (S754_zero false).
  unfold SFltb, SFcompare. destruct (Prim2SF x) as [s|s| |s m e]; try reflexivity;
    destruct s; reflexivity.
Qed.

Lemma binary_round_aux_sign m e l :
  match binary_round_aux prec emax false m e l with
  | S754_infinity s | S754_finite s _ _ => s = false
  | S754_zero _ | S754_nan => True
  end.
Proof.
  unfold binary_round_aux.
  destruct (shr_fexp prec emax m e l) as [mrs1 e1].
  destruct (shr_fexp prec emax _ e1 loc_Exact) as [mrs2 e2].
  destruct (shr_m mrs2); try exact I.
  destruct (e2 <=? emax - prec); reflexivity.
Qed.

(** A product of two numbers that are not negative is not negative. *)
Lemma mul_not_negative (a b : float) :
  (a <? 0)%float = false -> (b <? 0)%float = false -> (a * b <? 0)%float = false.
Proof.
  rewrite !ltb_zero_sign, mul_spec. unfold SF64mul, SFmul.
  destruct (Prim2SF a) as [sa|sa| |sa ma ea], (Prim2SF b) as [sb|sb| |sb mb eb];
    intros Ha Hb; subst; try reflexivity.
  cbn [xorb].
  pose proof (binary_round_aux_sign (Zpos (ma * mb)) (ea + eb) loc_Exact) as Hs.
  destruct (binary_round_aux _ _ _ _ _ _); auto.
Qed.

Section ScaleSigns.
Context `{Runtime} `{Library}.

(** X1. The scale of a resolution that is missing: NaN for [undefined] and
    for NaN, whatever the units, and for [null] the scale of 0. *)
Theorem getScaleForResolution_missing (units : value) :
  getScaleForResolution undefined units = Normal (number nan)
  /\ getScaleForResolution (number nan) units = Normal (number nan)
  /\ getScaleForResolution null units = getScaleForResolution (number 0) units.
Proof.
  unfold getScaleForResolution.
  destruct (get_cases units) as [-> | [mpu ->]]; cbn;
    rewrite ?mul_nan_l; repeat split; reflexivity.
Qed.

(** X2. The sign of the resolution is kept and nothing else changes: a
    negative resolution is neither refused nor made positive, its scale is
    exactly the opposite of the scale of the opposite resolution. *)
Theorem getScaleForResolution_opp (r mpu : float) (u : string) :
  METERS_PER_UNIT !! u = Some mpu ->
  getScaleForResolution (number (- r)) (str u)
  = Normal (number (- (r * mpu * 39.37 * (25.4 / 0.28)))%float)
  /\ getScaleForResolution (number r) (str u)
     = Normal (number (r * mpu * 39.37 * (25.4 / 0.28))%float).
Proof.
  intros Hu.
  assert (Hget : get METERS_PER_UNIT (str u) = number mpu)
    by (rewrite get_string, Hu; reflexivity).
  rewrite !(getScaleForResolution_number _ mpu) by assumption.
  split; [|reflexivity]. now rewrite !mul_opp_l.
Qed.

(** X3. With a table entry that is not negative, the scale of a resolution
    that is not negative is not negative (it is a number that is zero,
    positive or NaN). *)
Theorem getScaleForResolution_not_negative (r mpu : float) (u : string) :
  METERS_PER_UNIT !! u = Some mpu ->
  (mpu <? 0)%float = false ->
  (r <? 0)%float = false ->
  exists x : float,
    getScaleForResolution (number r) (str u) = Normal (number x)
    /\ (x <? 0)%float = false.
Proof.
  intros Hu Hmpu Hr.
  assert (Hget : get METERS_PER_UNIT (str u) = number mpu)
    by (rewrite get_string, Hu; reflexivity).
  eexists. split; [apply getScaleForResolution_number, Hget|].
  repeat apply mul_not_negative; first [assumption | reflexivity].
Qed.

End ScaleSigns.

(** A resolution of -2 degrees has the opposite of the scale of 2 degrees. *)
Lemma getScaleForResolution_opp_witness :
  olUnits !! "degrees"%string = Some 111194.87428468118%float
  /\ @getScaleForResolution exampleRuntime exampleLibrary (number (- (2))) (str "degrees")
     = Normal (number (- (2 * 111194.87428468118 * 39.37 * (25.4 / 0.28)))%float).
Proof.
  split; [reflexivity|].
  destruct (@getScaleForResolution_opp exampleRuntime exampleLibrary
              2%float 111194.87428468118%float "degrees"%string eq_refl) as [Hopp _].
  exact Hopp.
Defined.

(** The scale of a resolution of 0.02197265625 degrees is not negative. *)
Lemma getScaleForResolution_not_negative_witness :
  olUnits !! "degrees"%string = Some 111194.87428468118%float
  /\ (111194.87428468118 <? 0)%float = false
  /\ (0.02197265625 <? 0)%float = false
  /\ exists x : float,
       @getScaleForResolution exampleRuntime exampleLibrary
         (number 0.02197265625) (str "degrees") = Normal (number x)
       /\ (x <? 0)%float = false.
Proof.
  do 3 (split; [reflexivity|]).
  exact (@getScaleForResolution_not_negative exampleRuntime exampleLibrary
           0.02197265625%float 111194.87428468118%float "degrees"%string
           eq_refl eq_refl eq_refl).
Defined.

(** ** More on the translation of a layer *)

Section TranslationProperties.
Context `{Library}.

(** The translation of a layer on a vector source, events included. *)
Lemma mapOlLayerToInkmap_vector (olLayer : Layer) (features : list Feature) :
  getSource olLayer = VectorSource features ->
  mapOlLayerToInkmap olLayer =
  if style_truthy (styleRead olLayer) then
    match readStyle (styleRead olLayer) with
    | Fulfilled gsStyle =>
        (ReadStyle (styleRead olLayer) :: diagnostics gsStyle,
         Fulfilled (Some (GeoJSONLayer (writeFeaturesObject features)
                            (output gsStyle) "")))
    | Rejected e => ([ReadStyle (styleRead olLayer)], Rejected e)
    | Pending => ([ReadStyle (styleRead olLayer)], Pending)
    end
  else ([], Fulfilled (Some (GeoJSONLayer (writeFeaturesObject features) None ""))).
Proof.
  intros Hs. unfold mapOlLayerToInkmap, styleRead. rewrite Hs. cbn zeta.
  destruct (style_truthy _); [|reflexivity].
  unfold mbind, Async_bind, andThen, await, diagnostics.
  destruct (readStyle _) as [gs| |]; [|reflexivity..].
  destruct (errors gs), (warnings gs), (unsupportedProperties gs); reflexivity.
Qed.

(** The translation of a layer on any other source leaves no event. *)
Lemma mapOlLayerToInkmap_silent (olLayer : Layer) :
  (forall features, getSource olLayer <> VectorSource features) ->
  (mapOlLayerToInkmap olLayer).1 = []
  /\ (mapOlLayerToInkmap olLayer).2 <> Pending.
Proof.
  intros Hs. unfold mapOlLayerToInkmap.
  destruct (getSource olLayer) as [urls params|url params|source|urls|features| |];
    try (split; [reflexivity|discriminate]).
  - destruct (getProjection source); split; first [reflexivity|discriminate].
  - now destruct (Hs features).
Qed.

(** X4. What a translation logs and calls: nothing at all, unless the
    layer is on a vector source and the style read from it is truthy; then
    the parser is called first, and its answer and the diagnostics in it
    are logged only if it resolves. *)
Theorem mapOlLayerToInkmap_trace (olLayer : Layer) :
  (mapOlLayerToInkmap olLayer).1 =
  match styleTranslated olLayer with
  | None => []
  | Some olStyle =>
      ReadStyle olStyle ::
      match readStyle olStyle with
      | Fulfilled gsStyle => diagnostics gsStyle
      | Rejected _ | Pending => []
      end
  end.
Proof.
  unfold styleTranslated.
  destruct (getSource olLayer) as [urls params|url params|source|urls|features| |] eqn:Hs.
  5: { rewrite (mapOlLayerToInkmap_vector olLayer features Hs).
       destruct (style_truthy _); [|reflexivity].
       destruct (readStyle _); reflexivity. }
  all: apply mapOlLayerToInkmap_silent; rewrite Hs; discriminate.
Qed.

(** X5. Errors the parser reports do not abort the translation: when the
    parser resolves, be it with errors, the descriptor is yielded with the
    output it gave as style, and the errors are logged. *)
Theorem style_errors_do_not_abort (olLayer : Layer) (features : list Feature)
    (gsStyle : ReadStyleResult) (errs : list string) :
  getSource olLayer = VectorSource features ->
  style_truthy (styleRead olLayer) = true ->
  readStyle (styleRead olLayer) = Fulfilled gsStyle ->
  errors gsStyle = Some errs ->
  translatesTo olLayer
    (GeoJSONLayer (writeFeaturesObject features) (output gsStyle) "")
  /\ ConsoleError_errors errs ∈ (mapOlLayerToInkmap olLayer).1.
Proof.
  intros Hs Ht Hr He. unfold translatesTo.
  rewrite (mapOlLayerToInkmap_vector olLayer features Hs), Ht, Hr.
  split; [reflexivity|]. cbn [fst]. unfold diagnostics. rewrite He. cbn.
  apply list_elem_of_In. right. right. now left.
Qed.

(** X6. When a translation fails, and when it never settles. It rejects
    in two cases only: a WMTS source without projection, with a
    [TypeError], and a vector layer whose truthy style the parser rejects,
    with the parser's reason. It is pending only when the parser is. *)
Theorem mapOlLayerToInkmap_rejects_iff (olLayer : Layer) :
  (forall e : thrown,
     (mapOlLayerToInkmap olLayer).2 = Rejected e <->
     (exists source, getSource olLayer = WMTS source
                     /\ getProjection source = None
                     /\ e = TypeError "Cannot read properties of null (reading 'getCode')")
     \/ (exists olStyle, styleTranslated olLayer = Some olStyle
                         /\ readStyle olStyle = Rejected e))
  /\ ((mapOlLayerToInkmap olLayer).2 = Pending <->
      exists olStyle, styleTranslated olLayer = Some olStyle
                      /\ readStyle olStyle = Pending).
Proof.
  unfold styleTranslated.
  destruct (getSource olLayer) as [urls params|url params|source|urls|features| |] eqn:Hs.
  5: { rewrite (mapOlLayerToInkmap_vector olLayer features Hs).
       destruct (style_truthy _).
       - destruct (readStyle _) as [gs|e'|] eqn:Hr; cbn [snd]; split; try intros e; split;
           try discriminate;
           try (intros [(source & Hw & _)|(olStyle & [= <-] & Hp)]; congruence);
           try (intros (olStyle & [= <-] & Hp); congruence).
         + intros [= <-]. right. eauto.
         + intros _. eauto.
       - cbn [snd]. split; try intros e; split; try discriminate.
         + intros [(source & Hw & _)|(olStyle & Hn & _)]; discriminate.
         + intros (olStyle & Hn & _); discriminate. }
  all: unfold mapOlLayerToInkmap; rewrite Hs; cbn.
  3: destruct (getProjection source) eqn:Hp; cbn.
  all: split; try intros e; split; try discriminate;
    try (intros [(source' & Hw & Hn & _)|(olStyle & Hn & _)]; congruence);
    try (intros (olStyle & Hn & _); discriminate).
  - intros [= <-]. left. eauto.
  - intros [(source' & _ & _ & ->)|(olStyle & Hn & _)]; [reflexivity|discriminate].
Qed.

(** X7. A WMTS source without tile grid is translated all the same: the
    resolutions, the extent and the matrix ids of the descriptor are
    undefined. *)
Theorem wmts_without_tileGrid (olLayer : Layer) (source : WMTSSource) (code : value) :
  getSource olLayer = WMTS source ->
  getTileGrid source = None ->
  getProjection source = Some code ->
  exists d : LayerSpec,
    mapOlLayerToInkmap olLayer = ([], Fulfilled (Some d))
    /\ spec_type d = "WMTS"%string
    /\ spec_tileGrid d
       = Some {| resolutions := None; extent := None; matrixIds := None |}
    /\ spec_url d = Some (firstUrl (getUrls source)).
Proof.
  intros Hs Hg Hp. unfold mapOlLayerToInkmap. rewrite Hs, Hg, Hp.
  eexists. split; [reflexivity|]. repeat split.
Qed.

(** X8. A layer on a single-image WMS source translates, without an
    [await] and without failing, to a ['WMS'] descriptor with [tiled]
    false, whose url is the url of the source, or the empty string when it
    has none, and whose layer is the [LAYERS] parameter, or [undefined]. *)
Theorem imageWMS_descriptor (olLayer : Layer) (url : option string)
    (params : option (gmap string value)) :
  getSource olLayer = ImageWMS url params ->
  exists d : LayerSpec,
    mapOlLayerToInkmap olLayer = ([], Fulfilled (Some d))
    /\ spec_type d = "WMS"%string
    /\ spec_tiled d = Some false
    /\ spec_url d = Some match url with Some u => u | None => ""%string end
    /\ spec_layer d = Some match params with
                           | Some p => match p !! "LAYERS"%string with
                                       | Some v => v
                                       | None => undefined
                                       end
                           | None => undefined
                           end
    /\ spec_opacity d = Some (getOpacity olLayer).
Proof.
  intros Hs. unfold mapOlLayerToInkmap. rewrite Hs.
  eexists. split; [reflexivity|]. cbn [spec_type spec_tiled spec_url spec_layer spec_opacity].
  do 2 (split; [reflexivity|]). split; [destruct url; reflexivity|].
  split; [|reflexivity]. unfold LAYERS.
  destruct params as [p|]; [|reflexivity]. cbn. destruct (p !! _); reflexivity.
Qed.

(** X9. The attribution of a descriptor never comes from the source: it is
    the fixed OpenStreetMap text for an OSM source and empty for every
    other one. *)
Theorem descriptor_attribution (olLayer : Layer) (d : LayerSpec) :
  translatesTo olLayer d ->
  spec_attribution d =
  match getSource olLayer with
  | OSM _ => "© OpenStreetMap (www.openstreetmap.org)"%string
  | _ => ""%string
  end.
Proof.
  unfold translatesTo. intros Hd.
  destruct (getSource olLayer) as [urls params|url params|source|urls|features| |] eqn:Hs.
  5: { rewrite (mapOlLayerToInkmap_vector olLayer features Hs) in Hd.
       destruct (style_truthy _); [destruct (readStyle _)|];
         try discriminate; now injection Hd as <-. }
  all: unfold mapOlLayerToInkmap in Hd; rewrite Hs in Hd; cbn in Hd.
  3: destruct (getProjection source); cbn in Hd.
  all: try discriminate; now injection Hd as <-.
Qed.

(** The parser calls of one translation. *)
Lemma readStyleCalls_translation (olLayer : Layer) :
  readStyleCalls (mapOlLayerToInkmap olLayer).1
  = from_option (fun olStyle => [olStyle]) [] (styleTranslated olLayer).
Proof.
  unfold styleTranslated.
  destruct (getSource olLayer) as [urls params|url params|source|urls|features| |] eqn:Hs.
  5: { rewrite (mapOlLayerToInkmap_vector olLayer features Hs).
       destruct (style_truthy _); [|reflexivity].
       destruct (readStyle _) as [gs| |]; try reflexivity.
       cbn. unfold diagnostics. cbn.
       destruct (errors gs), (warnings gs), (unsupportedProperties gs); reflexivity. }
  all: destruct (mapOlLayerToInkmap_silent olLayer) as [-> _];
    [rewrite Hs; discriminate|reflexivity].
Qed.

End TranslationProperties.

(** ** More on the assembly *)

(** What [Promise.all] settles in, by what is in the list. *)
Lemma Promise_all_cases {A : Type} (ps : list (promise A)) :
  match Promise_all ps with
  | Fulfilled l => ps = Fulfilled <$> l
  | Rejected e => Rejected e ∈ ps
  | Pending => Pending ∈ ps /\ forall e, Rejected e ∉ ps
  end.
Proof.
  induction ps as [|p ps IH]; [reflexivity|].
  cbn [Promise_all]. destruct p as [a|e|], (Promise_all ps) as [l|e'|];
    try (now left); try (now right).
  - cbn. now rewrite IH.
  - destruct IH as [Hp Hr]. split; [now right|].
    intros e He. apply elem_of_cons in He as [He|He]; [discriminate|]. now apply (Hr e).
  - split; [now left|]. intros e He.
    apply elem_of_cons in He as [He|He]; [discriminate|].
    rewrite IH in He. apply list_elem_of_fmap in He as (? & ? & _). discriminate.
  - destruct IH as [Hp Hr]. split; [now left|].
    intros e He. apply elem_of_cons in He as [He|He]; [discriminate|]. now apply (Hr e).
Qed.

Lemma omap_concat {A B : Type} (f : A -> option B) (ls : list (list A)) :
  omap f (concat ls) = concat ((omap f : list A -> list B) <$> ls).
Proof.
  induction ls as [|l ls IH]; [reflexivity|].
  cbn. now rewrite omap_app, IH.
Qed.

(** A [null] among the values does not change what is left of them. *)
Lemma Promise_all_insert_null {A : Type} (ps1 ps2 : list (promise (option A))) :
  match Promise_all (ps1 ++ Fulfilled None :: ps2), Promise_all (ps1 ++ ps2) with
  | Fulfilled l, Fulfilled l' => omap id l = omap id l'
  | Rejected e, Rejected e' => e = e'
  | Pending, Pending => True
  | _, _ => False
  end.
Proof.
  induction ps1 as [|p ps1 IH]; cbn [app Promise_all].
  - destruct (Promise_all ps2); auto.
  - destruct p as [a|e|], (Promise_all (ps1 ++ Fulfilled None :: ps2)) as [l|e1|],
      (Promise_all (ps1 ++ ps2)) as [l'|e2|]; try contradiction; auto.
    cbn. now rewrite IH.
Qed.

Section MoreAssemblyProperties.
Context `{Runtime} `{Library}.

Lemma mapOlLayerToInkmap_unrecognized (olLayer : Layer) :
  recognized (getSource olLayer) = false ->
  mapOlLayerToInkmap olLayer = ([], Fulfilled None).
Proof.
  unfold mapOlLayerToInkmap.
  destruct (getSource olLayer); try discriminate; reflexivity.
Qed.

(** X10. On a complete view whose center is transformed, the promise
    [fromOlMap] returns settles with the translations: it is fulfilled
    exactly when all of them are, rejected (without reason) exactly when
    one of them is, and pending exactly when none is rejected and one is
    pending. *)
Theorem fromOlMap_settles (olMap : OlMap) (scale : value) (lonLat : list float) :
  getScaleForResolution (getResolution (getView olMap)) (getUnits (getView olMap))
  = Normal scale ->
  incompleteViewState (getView olMap) = false ->
  toLonLat (default [] (getCenter (getView olMap))) (getCode (getView olMap))
  = Normal lonLat ->
  ((exists spec, (fromOlMap olMap).2 = Normal (Fulfilled spec)) <->
   Forall (fun olLayer => exists response,
             (mapOlLayerToInkmap olLayer).2 = Fulfilled response)
     (getLayers olMap))
  /\ ((fromOlMap olMap).2 = Normal (Rejected NoReason) <->
      Exists (fun olLayer => exists e, (mapOlLayerToInkmap olLayer).2 = Rejected e)
        (getLayers olMap))
  /\ ((fromOlMap olMap).2 = Normal Pending <->
      Exists (fun olLayer => (mapOlLayerToInkmap olLayer).2 = Pending)
        (getLayers olMap)
      /\ ~ Exists (fun olLayer => exists e, (mapOlLayerToInkmap olLayer).2 = Rejected e)
           (getLayers olMap)).
Proof.
  intros Hscale Hview Hcenter.
  rewrite (fromOlMap_complete olMap scale lonLat Hscale Hview Hcenter). cbn zeta.
  pose proof (Promise_all_cases ((mapOlLayerToInkmap <$> getLayers olMap).*2)) as Hall.
  rewrite Forall_forall, !Exists_exists.
  assert (Hmem : forall p, p ∈ (mapOlLayerToInkmap <$> getLayers olMap).*2 <->
                 exists olLayer, olLayer ∈ getLayers olMap
                                 /\ (mapOlLayerToInkmap olLayer).2 = p).
  { intros p. rewrite <- list_fmap_compose, list_elem_of_fmap. cbn.
    split; intros (olLayer & H1 & H2); eauto. }
  destruct (Promise_all _) as [responses|e|]; cbn [snd].
  - split; [|split].
    + split; [|eauto]. intros _ olLayer Hin.
      assert (Hp : (mapOlLayerToInkmap olLayer).2
                   ∈ (mapOlLayerToInkmap <$> getLayers olMap).*2)
        by (apply Hmem; eauto).
      rewrite Hall in Hp. apply list_elem_of_fmap in Hp as (r & -> & _). eauto.
    + split; [discriminate|]. intros (olLayer & Hin & e & He).
      assert (Hp : Rejected e ∈ (mapOlLayerToInkmap <$> getLayers olMap).*2)
        by (apply Hmem; eauto).
      rewrite Hall in Hp. apply list_elem_of_fmap in Hp as (? & ? & _). discriminate.
    + split; [discriminate|]. intros [(olLayer & Hin & He) _].
      assert (Hp : Pending ∈ (mapOlLayerToInkmap <$> getLayers olMap).*2)
        by (apply Hmem; eauto).
      rewrite Hall in Hp. apply list_elem_of_fmap in Hp as (? & ? & _). discriminate.
  - apply Hmem in Hall as (bad & Hin & Hbad).
    split; [|split].
    + split; [intros [spec Hspec]; discriminate|].
      intros Hf. destruct (Hf bad Hin) as [r Hr]. congruence.
    + split; [eauto|reflexivity].
    + split; [discriminate|]. intros [_ Hno]. exfalso. apply Hno. eauto.
  - destruct Hall as [Hp Hno]. apply Hmem in Hp as (slow & Hin & Hslow).
    split; [|split].
    + split; [intros [spec Hspec]; discriminate|].
      intros Hf. destruct (Hf slow Hin) as [r Hr]. congruence.
    + split; [discriminate|]. intros (olLayer & Hin' & e & He).
      exfalso. apply (Hno e), Hmem. eauto.
    + split; [|reflexivity]. intros _. split; [eauto|].
      intros (olLayer & Hin' & e & He). apply (Hno e), Hmem. eauto.
Qed.

(** X11. The parser is called once for each layer on a vector source
    whose style is truthy, in the order of the layers, whenever
    [fromOlMap] returns a promise, however it settles; it is not called
    at all when [fromOlMap] throws. *)
Theorem fromOlMap_parser_calls (olMap : OlMap) :
  (forall p, (fromOlMap olMap).2 = Normal p ->
     readStyleCalls (fromOlMap olMap).1 = omap styleTranslated (getLayers olMap))
  /\ (forall e, (fromOlMap olMap).2 = Throw e ->
      readStyleCalls (fromOlMap olMap).1 = []).
Proof.
  split.
  - intros p Hp.
    destruct (fromOlMap_returns _ _ Hp) as (scale & lonLat & Hscale & Hview & Hcenter).
    rewrite (fromOlMap_complete olMap scale lonLat Hscale Hview Hcenter). cbn zeta.
    assert (Hcalls : readStyleCalls (concat (mapOlLayerToInkmap <$> getLayers olMap).*1)
                     = omap styleTranslated (getLayers olMap)).
    { induction (getLayers olMap) as [|olLayer ls IH]; [reflexivity|].
      rewrite !fmap_cons. cbn [concat]. unfold readStyleCalls in *.
      rewrite omap_app, IH.
      pose proof (readStyleCalls_translation olLayer) as Hone.
      unfold readStyleCalls in Hone. rewrite Hone. cbn [omap list_omap].
      destruct (styleTranslated olLayer); reflexivity. }
    destruct (Promise_all _) as [responses|t|]; cbn [fst]; try exact Hcalls.
    change (readStyleCalls
              (concat (mapOlLayerToInkmap <$> getLayers olMap).*1 ++ [ConsoleError_caught t])
            = omap styleTranslated (getLayers olMap)).
    unfold readStyleCalls in *. rewrite omap_app, Hcalls. apply app_nil_r.
  - intros e He. unfold fromOlMap in *.
    destruct (getScaleForResolution _ _); [|reflexivity].
    destruct (_ || _); [reflexivity|].
    destruct (toLonLat _ _); [|reflexivity].
    destruct (Promise_all _); discriminate.
Qed.

(** X12. A layer that is not recognized makes no difference: with it or
    without it, wherever it is among the layers, [fromOlMap] leaves the
    same trace and has the same outcome. *)
Theorem fromOlMap_ignores_unrecognized (view : View) (before after : list Layer)
    (olLayer : Layer) :
  recognized (getSource olLayer) = false ->
  fromOlMap {| getView := view; getLayers := before ++ olLayer :: after |}
  = fromOlMap {| getView := view; getLayers := before ++ after |}.
Proof.
  intros Hrec. unfold fromOlMap. cbn [getView getLayers].
  destruct (getScaleForResolution _ _); [|reflexivity].
  destruct (_ || _); [reflexivity|].
  destruct (toLonLat _ _); [|reflexivity].
  rewrite !fmap_app, !fmap_cons, (mapOlLayerToInkmap_unrecognized _ Hrec).
  cbn [fst snd]. rewrite !concat_app. cbn [concat app].
  pose proof (Promise_all_insert_null (mapOlLayerToInkmap <$> before).*2
                (mapOlLayerToInkmap <$> after).*2) as Hnull.
  destruct (Promise_all (_ ++ Fulfilled None :: _)), (Promise_all (_ ++ _));
    try contradiction; try reflexivity.
  - now rewrite Hnull.
  - now subst.
Qed.

(** X13. The scale is not checked: a map in units the table does not
    have passes, and the specification it is fulfilled with has a scale
    of NaN. *)
Theorem fromOlMap_scale_unchecked (olMap : OlMap) (r : float) (spec : PrintSpec) :
  getResolution (getView olMap) = number r ->
  get METERS_PER_UNIT (getUnits (getView olMap)) = undefined ->
  (fromOlMap olMap).2 = Normal (Fulfilled spec) ->
  scale spec = number nan.
Proof.
  intros Hr Hget Hspec.
  destruct (fromOlMap_returns _ _ Hspec) as (sc & lonLat & Hscale & Hview & Hcenter).
  rewrite (fromOlMap_complete olMap sc lonLat Hscale Hview Hcenter) in Hspec.
  cbn zeta in Hspec. destruct (Promise_all _); try discriminate.
  cbn [snd] in Hspec. injection Hspec as <-. cbn [scale].
  rewrite Hr, (getScaleForResolution_undefined_units r _ Hget), mul_nan_r in Hscale.
  now injection Hscale as <-.
Qed.

(** X14. Where the fields of a specification come from: its scale is the
    scale of the resolution of the view in the units of the view, its
    center what [toLonLat] made of the center of the view, its projection
    the code of the view; its size, its dpi and the places of the scale
    bar, of the north arrow and of the attributions are fixed. *)
Theorem fromOlMap_fields (olMap : OlMap) (spec : PrintSpec) :
  (fromOlMap olMap).2 = Normal (Fulfilled spec) ->
  getScaleForResolution (getResolution (getView olMap)) (getUnits (getView olMap))
  = Normal (scale spec)
  /\ (exists c, getCenter (getView olMap) = Some c
                /\ toLonLat c (getCode (getView olMap)) = Normal (center spec))
  /\ projection spec = getCode (getView olMap)
  /\ size spec = (400%float, 240%float, "mm"%string)
  /\ dpi spec = 120%float
  /\ scaleBar spec = {| position := "bottom-left"; units := "metric" |}
  /\ northArrow spec = "top-right"%string
  /\ attributions spec = "bottom-right"%string.
Proof.
  intros Hspec.
  destruct (fromOlMap_returns _ _ Hspec) as (sc & lonLat & Hscale & Hview & Hcenter).
  rewrite (fromOlMap_complete olMap sc lonLat Hscale Hview Hcenter) in Hspec.
  cbn zeta in Hspec. destruct (Promise_all _); try discriminate.
  cbn [snd] in Hspec. injection Hspec as <-. cbn.
  split; [exact Hscale|]. split; [|repeat split].
  unfold incompleteViewState in Hview.
  destruct (getCenter (getView olMap)) as [c|]; [eauto|].
  rewrite orb_true_r in Hview. discriminate.
Qed.

(** X15. A map none of whose layers is recognized, a map without layers
    for one, is no error: on a complete view whose center is transformed,
    [fromOlMap] logs the map and returns a promise fulfilled with a
    specification without layers. *)
Theorem fromOlMap_no_recognized_layer (olMap : OlMap) (scale : value)
    (lonLat : list float) :
  getScaleForResolution (getResolution (getView olMap)) (getUnits (getView olMap))
  = Normal scale ->
  incompleteViewState (getView olMap) = false ->
  toLonLat (default [] (getCenter (getView olMap))) (getCode (getView olMap))
  = Normal lonLat ->
  Forall (fun olLayer => recognized (getSource olLayer) = false) (getLayers olMap) ->
  exists spec : PrintSpec,
    fromOlMap olMap = ([ConsoleLog_olMap], Normal (Fulfilled spec))
    /\ layers spec = [].
Proof.
  intros Hscale Hview Hcenter Hnone.
  rewrite (fromOlMap_complete olMap scale lonLat Hscale Hview Hcenter). cbn zeta.
  assert (Hruns : mapOlLayerToInkmap <$> getLayers olMap
                  = (fun _ => ([], Fulfilled None)) <$> getLayers olMap).
  { induction Hnone as [|olLayer ls Hrec _ IH]; [reflexivity|].
    cbn. now rewrite IH, (mapOlLayerToInkmap_unrecognized _ Hrec). }
  rewrite Hruns. clear Hruns Hnone.
  assert (Hall : Promise_all ((fun _ : Layer => (([] : list Event), Fulfilled (@None LayerSpec)))
                                <$> getLayers olMap).*2
                 = Fulfilled ((fun _ => None) <$> getLayers olMap)
                 /\ concat ((fun _ : Layer => (([] : list Event), Fulfilled (@None LayerSpec)))
                              <$> getLayers olMap).*1 = []).
  { induction (getLayers olMap) as [|olLayer ls [IH1 IH2]]; [split; reflexivity|].
    cbn. rewrite IH1, IH2. split; reflexivity. }
  destruct Hall as [-> ->]. eexists. split; [reflexivity|]. cbn [layers].
  induction (getLayers olMap); [reflexivity|assumption].
Qed.

End MoreAssemblyProperties.

(** ** The promise [printerReady] *)

(** X16. How [printerReady] settles. It is fulfilled with [true] exactly
    when off-screen canvases are supported, the worker registers and
    controls the page; with [false] exactly when off-screen canvases are
    not supported, or the registration fails, or the registered worker
    does not control the page (the later [resolve(true)] is then without
    effect). A failed registration never rejects it: it is rejected
    exactly when off-screen canvases are supported and the browser has no
    [navigator.serviceWorker], and it stays pending exactly when the
    registration does. *)
Theorem printerReady_settles (browser : Browser) :
  ((printerReady browser).2 = Fulfilled true <->
   transferControlToOffscreen browser = true
   /\ exists container, serviceWorker browser = Some container
        /\ (exists u, register container = Fulfilled u)
        /\ controller container = true)
  /\ ((printerReady browser).2 = Fulfilled false <->
      transferControlToOffscreen browser = false
      \/ exists container, serviceWorker browser = Some container
           /\ ((exists e, register container = Rejected e)
               \/ (exists u, register container = Fulfilled u)
                  /\ controller container = false))
  /\ ((exists e, (printerReady browser).2 = Rejected e) <->
      transferControlToOffscreen browser = true /\ serviceWorker browser = None)
  /\ ((printerReady browser).2 = Pending <->
      transferControlToOffscreen browser = true
      /\ exists container, serviceWorker browser = Some container
           /\ register container = Pending).
Proof.
  destruct browser as [[] [[[u|e|] []]|]]; cbn;
    repeat split; intros; try discriminate;
    repeat match goal with
    | H : _ /\ _ |- _ => destruct H
    | H : _ \/ _ |- _ => destruct H
    | H : exists _, _ |- _ => destruct H
    | H : Some _ = Some _ |- _ => injection H as <-
    | H : register _ = _ |- _ => cbn in H
    | H : controller _ = _ |- _ => cbn in H
    end;
    try discriminate; try reflexivity; eauto 8.
Qed.

(** X17. What the module announces: the use of the worker exactly when
    [printerReady] is fulfilled with [true], the use of the main thread
    exactly when it is fulfilled with [false], and nothing at all exactly
    when off-screen canvases are supported and the browser either has no
    [navigator.serviceWorker] or never settles the registration. *)
Theorem announceReady_message (browser : Browser) :
  (announceReady browser = [ConsoleLog "[inkmap] Ready, using worker"] <->
   (printerReady browser).2 = Fulfilled true)
  /\ (announceReady browser = [ConsoleLog "[inkmap] Ready, using main thread"] <->
      (printerReady browser).2 = Fulfilled false)
  /\ (announceReady browser = [] <->
      transferControlToOffscreen browser = true
      /\ (serviceWorker browser = None
          \/ exists container, serviceWorker browser = Some container
               /\ register container = Pending)).
Proof.
  destruct browser as [[] [[[u|e|] []]|]]; cbn;
    repeat split; intros; try discriminate;
    repeat match goal with
    | H : _ /\ _ |- _ => destruct H
    | H : _ \/ _ |- _ => destruct H
    | H : exists _, _ |- _ => destruct H
    | H : Some _ = Some _ |- _ => injection H as <-
    | H : register _ = _ |- _ => cbn in H
    end;
    try discriminate; try reflexivity; eauto 8.
Qed.

(** ** The click handler of the example page *)

Lemma started_events (t : list Event) (x : PageEvent) :
  x ∈ [ConsoleLog_map; ShowSpinner] ++ (Assembly <$> t) ->
  x = ConsoleLog_map \/ x = ShowSpinner \/ exists ev, x = Assembly ev.
Proof.
  rewrite elem_of_app, !elem_of_cons, list_elem_of_fmap.
  intros [[->| [->|Hnil]]|(ev & -> & _)]; eauto.
  now apply elem_of_nil in Hnil.
Qed.

Section ClickProperties.
Context `{Runtime} `{Library} `{Page}.

(** X18. The outcome of a click. The handler's promise is fulfilled
    exactly when [fromOlMap] returns a promise fulfilled with a
    specification and printing it gives a blob; it is rejected with what
    [fromOlMap] threw, with what its promise was rejected with, or with
    what [print] was rejected with, and with nothing else. The spinner is
    always shown, and it is hidden exactly when the handler's promise is
    fulfilled: after any failure it keeps spinning. *)
Theorem onClick_outcome (map : OlMap) :
  ((onClick map).2 = Fulfilled tt <->
   exists spec imageBlob, (fromOlMap map).2 = Normal (Fulfilled spec)
                          /\ print spec = Fulfilled imageBlob)
  /\ (forall e, (onClick map).2 = Rejected e <->
        (fromOlMap map).2 = Throw e
        \/ (fromOlMap map).2 = Normal (Rejected e)
        \/ exists spec, (fromOlMap map).2 = Normal (Fulfilled spec)
                        /\ print spec = Rejected e)
  /\ ShowSpinner ∈ (onClick map).1
  /\ (HideSpinner ∈ (onClick map).1 <-> (onClick map).2 = Fulfilled tt).
Proof.
  unfold onClick.
  destruct (fromOlMap map) as [t [[spec|e'|]|e']]; cbn [fst snd].
  - destruct (print spec) as [imageBlob|e'|] eqn:Hprint; cbn [fst snd].
    + split; [split; eauto|]. split; [|split].
      * intros e. split; [discriminate|].
        intros [Ht|[Hr|(spec' & [= <-] & Hp)]]; congruence.
      * rewrite !elem_of_app, !elem_of_cons. auto.
      * split; [reflexivity|]. intros _.
        rewrite !elem_of_app, !elem_of_cons. auto.
    + split; [split; [discriminate|intros (? & ? & [= <-] & ?); congruence]|].
      split; [|split].
      * intros e. split.
        -- intros [= <-]. eauto.
        -- intros [Ht|[Hr|(spec' & [= <-] & Hp)]]; congruence.
      * rewrite !elem_of_app, !elem_of_cons. auto.
      * split; [|discriminate]. rewrite elem_of_app, elem_of_cons.
        intros [Hs|[Hp|Hnil]]; [|discriminate|now apply elem_of_nil in Hnil].
        apply started_events in Hs as [Hs|[Hs|[ev Hs]]]; discriminate.
    + split; [split; [discriminate|intros (? & ? & [= <-] & ?); congruence]|].
      split; [|split].
      * intros e. split; [discriminate|].
        intros [Ht|[Hr|(spec' & [= <-] & Hp)]]; congruence.
      * rewrite !elem_of_app, !elem_of_cons. auto.
      * split; [|discriminate]. rewrite elem_of_app, elem_of_cons.
        intros [Hs|[Hp|Hnil]]; [|discriminate|now apply elem_of_nil in Hnil].
        apply started_events in Hs as [Hs|[Hs|[ev Hs]]]; discriminate.
  - split; [split; [discriminate|intros (? & ? & [=] & _)]|].
    split; [|split].
    + intros e. split.
      * intros [= <-]. eauto.
      * intros [Ht|[[= <-]|(spec' & [=] & _)]]; [discriminate|reflexivity].
    + rewrite !elem_of_app, !elem_of_cons. auto.
    + split; [|discriminate].
      intros Hs. apply started_events in Hs as [Hs|[Hs|[ev Hs]]]; discriminate.
  - split; [split; [discriminate|intros (? & ? & [=] & _)]|].
    split; [|split].
    + intros e. split; [discriminate|].
      intros [Ht|[Hr|(spec' & [=] & _)]]; discriminate.
    + rewrite !elem_of_app, !elem_of_cons. auto.
    + split; [|discriminate].
      intros Hs. apply started_events in Hs as [Hs|[Hs|[ev Hs]]]; discriminate.
  - split; [split; [discriminate|intros (? & ? & [=] & _)]|].
    split; [|split].
    + intros e. split.
      * intros [= <-]. eauto.
      * intros [[= <-]|[Hr|(spec' & [=] & _)]]; [reflexivity|discriminate].
    + rewrite !elem_of_app, !elem_of_cons. auto.
    + split; [|discriminate].
      intros Hs. apply started_events in Hs as [Hs|[Hs|[ev Hs]]]; discriminate.
Qed.

(** X19. What a click prints and downloads. [print] is called with a
    specification exactly when [fromOlMap] returned a promise fulfilled
    with it; an object URL is created for a blob exactly when [print] was
    fulfilled with it; and a file is never offered under another name
    than [inkmap.png]. *)
Theorem onClick_download (map : OlMap) :
  (forall spec, Print spec ∈ (onClick map).1 <->
     (fromOlMap map).2 = Normal (Fulfilled spec))
  /\ (forall imageBlob, CreateObjectURL imageBlob ∈ (onClick map).1 <->
        exists spec, (fromOlMap map).2 = Normal (Fulfilled spec)
                     /\ print spec = Fulfilled imageBlob)
  /\ (forall filename, SetAttribute "download" filename ∈ (onClick map).1 ->
        filename = "inkmap.png"%string).
Proof.
  unfold onClick, downloadBlob.
  destruct (fromOlMap map) as [t [[spec|e'|]|e']]; cbn [fst snd];
    [destruct (print spec) as [imageBlob|e'|] eqn:Hprint; cbn [fst snd]|..];
    (split; [|split]); intros x;
    rewrite ?elem_of_app, ?elem_of_cons, ?elem_of_nil;
    try (split; intros Hx);
    try intros Hx;
    repeat match goal with
    | Hx : _ \/ _ |- _ => destruct Hx as [Hx|Hx]
    | Hx : _ ∈ Assembly <$> _ |- _ =>
        apply list_elem_of_fmap in Hx as (? & Hx & _)
    | Hx : exists _, _ |- _ => destruct Hx as [? Hx]
    | Hx : _ /\ _ |- _ => destruct Hx as [? Hx]
    | Hx : False |- _ => destruct Hx
    end;
    try discriminate;
    repeat match goal with
    | Hx : Print _ = Print _ |- _ => injection Hx as ->
    | Hx : CreateObjectURL _ = CreateObjectURL _ |- _ => injection Hx as ->
    | Hx : SetAttribute _ _ = SetAttribute _ _ |- _ => injection Hx as ->
    | Hx : Normal (Fulfilled _) = Normal (Fulfilled _) |- _ => injection Hx as ->
    end;
    try reflexivity; try congruence; eauto 8.
  assert (x = imageBlob) as -> by congruence.
  repeat first [left; reflexivity | right].
Qed.

End ClickProperties.

(** ** Failures of the assembly *)


Section FailureProperties.
Context `{Runtime} `{Library}.



End FailureProperties.

(** ** The further statements at concrete inputs *)

(** A vector layer styled by a function the parser cannot translate: the
    error is logged and the descriptor is yielded, without style. *)
Lemma style_errors_do_not_abort_witness :
  @translatesTo exampleLibrary (vectorLayer (StyleFunction 7))
    (GeoJSONLayer (featureCollection 1) None "")
  /\ ConsoleError_errors ["style function"%string]
     ∈ (@mapOlLayerToInkmap exampleLibrary (vectorLayer (StyleFunction 7))).1.
Proof.
  exact (@style_errors_do_not_abort exampleLibrary (vectorLayer (StyleFunction 7))
           [feature 1] _ _ eq_refl eq_refl eq_refl eq_refl).
Defined.

(** The WMTS layer of the example page, had its source no tile grid. *)
Lemma wmts_without_tileGrid_witness :
  exists d : LayerSpec,
    @mapOlLayerToInkmap exampleLibrary gridlessWmtsLayer = ([], Fulfilled (Some d))
    /\ spec_type d = "WMTS"%string
    /\ spec_tileGrid d
       = Some {| resolutions := None; extent := None; matrixIds := None |}
    /\ spec_url d = Some "https://mrdata.usgs.gov/mapcache/wmts"%string.
Proof.
  exact (@wmts_without_tileGrid exampleLibrary gridlessWmtsLayer _ _
           eq_refl eq_refl eq_refl).
Defined.

(** A single-image WMS: [LAYERS=foo] at [http://x/wms], opacity 0.25. *)
Lemma imageWMS_descriptor_witness :
  exists d : LayerSpec,
    @mapOlLayerToInkmap exampleLibrary imageWmsLayer = ([], Fulfilled (Some d))
    /\ spec_type d = "WMS"%string
    /\ spec_tiled d = Some false
    /\ spec_url d = Some "http://x/wms"%string
    /\ spec_layer d = Some (str "foo")
    /\ spec_opacity d = Some 0.25%float.
Proof.
  exact (@imageWMS_descriptor exampleLibrary imageWmsLayer _ _ eq_refl).
Defined.

(** The tiled WMS layer of the examples has an empty attribution. *)
Lemma descriptor_attribution_witness :
  exists d : LayerSpec,
    @translatesTo exampleLibrary tileWmsLayer d
    /\ spec_attribution d = ""%string.
Proof.
  eexists. split; [reflexivity|].
  exact (@descriptor_attribution exampleLibrary tileWmsLayer _ eq_refl).
Defined.

(** An OSM layer and a vector layer on whose style the parser fails: the
    promise is rejected, without reason. *)
Lemma fromOlMap_settles_witness :
  (@fromOlMap exampleRuntime exampleLibrary
     (exampleMap [osmLayer; vectorLayer (Style 13)])).2
  = Normal (Rejected NoReason).
Proof.
  destruct (@fromOlMap_settles exampleRuntime exampleLibrary
              (exampleMap [osmLayer; vectorLayer (Style 13)]) _ _
              eq_refl eq_refl eq_refl) as (_ & [_ Hrejected] & _).
  apply Hrejected, Exists_cons_tl, Exists_cons_hd.
  exists (Foreign 13). reflexivity.
Defined.

(** The map of three layers whose second is not recognized against the
    map of the two others. *)
Lemma fromOlMap_ignores_unrecognized_witness :
  @fromOlMap exampleRuntime exampleLibrary
    (exampleMap [osmLayer; otherLayer; tileWmsLayer])
  = @fromOlMap exampleRuntime exampleLibrary (exampleMap [osmLayer; tileWmsLayer]).
Proof.
  exact (@fromOlMap_ignores_unrecognized exampleRuntime exampleLibrary
           (getView (exampleMap [])) [osmLayer] [tileWmsLayer] otherLayer eq_refl).
Defined.

(** A map in pixels: a specification with a scale of NaN. *)
Lemma fromOlMap_scale_unchecked_witness :
  exists spec : PrintSpec,
    (@fromOlMap exampleRuntime exampleLibrary (pixelMap [osmLayer])).2
    = Normal (Fulfilled spec)
    /\ scale spec = number nan.
Proof.
  eexists. split; [reflexivity|].
  exact (@fromOlMap_scale_unchecked exampleRuntime exampleLibrary
           (pixelMap [osmLayer]) 1%float _ eq_refl eq_refl eq_refl).
Defined.

(** The specification of the map of the examples with an OSM layer. *)
Lemma fromOlMap_fields_witness :
  exists spec : PrintSpec,
    (@fromOlMap exampleRuntime exampleLibrary (exampleMap [osmLayer])).2
    = Normal (Fulfilled spec)
    /\ projection spec = str "EPSG:4326"
    /\ center spec = [8; 50]%float
    /\ dpi spec = 120%float.
Proof.
  eexists. split; [reflexivity|].
  destruct (@fromOlMap_fields exampleRuntime exampleLibrary
              (exampleMap [osmLayer]) _ eq_refl)
    as (_ & _ & Hprojection & _ & Hdpi & _).
  split; [exact Hprojection|]. split; [reflexivity|exact Hdpi].
Defined.

(** A map whose only layer is of a class that is not recognized. *)
Lemma fromOlMap_no_recognized_layer_witness :
  exists spec : PrintSpec,
    @fromOlMap exampleRuntime exampleLibrary (exampleMap [otherLayer])
    = ([ConsoleLog_olMap], Normal (Fulfilled spec))
    /\ layers spec = [].
Proof.
  apply (@fromOlMap_no_recognized_layer exampleRuntime exampleLibrary
           (exampleMap [otherLayer]) _ _ eq_refl eq_refl eq_refl).
  repeat constructor.
Defined.

(** A browser whose worker registers and takes control uses the worker;
    one without service workers is told nothing; a click on the example
    page with a map without layers is rejected by the printing. *)
Example printerReady_examples :
  printerReady workerBrowser = ([], Fulfilled true)
  /\ announceReady workerBrowser = [ConsoleLog "[inkmap] Ready, using worker"]
  /\ announceReady insecureBrowser = []
  /\ (@onClick exampleRuntime exampleLibrary examplePage (exampleMap [])).2
     = Rejected (Foreign 21)
  /\ (@onClick exampleRuntime exampleLibrary examplePage (exampleMap [osmLayer])).2
     = Fulfilled tt.
Proof. repeat split. Qed.
